(** * GrlRPC serialization core: registries, descriptors and dispatch

    A shallow embedding of [include/type_registry.h] and
    [include/serialization_framework.h].

    - The process-wide singletons ([TypeRegistry::Instance()] and friends)
      become explicit registry values passed to, and returned by, every
      operation; the per-call mutex is not modelled (each operation is one
      atomic step).
    - [std::unordered_map<std::string, V>] is a [gmap string V]; only [find],
      [operator[]=], [size] and [clear] are used by the code.
    - A [std::unique_ptr] that may be null is an [option].
    - What the C++ runtime supplies ([typeid], [abi::__cxa_demangle],
      [dynamic_cast], the values behind [void*] and [std::any]) is gathered
      in the class [CxxRuntime]. *)

From stdpp Require Import base option strings list gmap fin_maps.
From Stdlib Require Import ZArith Ascii.

Local Open Scope string_scope.
Local Open Scope list_scope.

(** ** The C++ runtime the framework is written against *)

Class CxxRuntime := {
  (** the types the templates are instantiated at; equality of two types is
      what [dynamic_cast] between wrapper instantiations observes *)
  CppType : Type;
  CppType_eq_dec :: EqDecision CppType;
  (** [typeid(T).name()] *)
  typeid_name : CppType -> string;
  (** [abi::__cxa_demangle(mangled, nullptr, nullptr, &status)]:
      [Some s] when [status == 0] and the result is not null *)
  cxa_demangle : string -> option string;
  (** the objects handed around as [const T&], [T&] and [void*] *)
  Obj : Type;
  (** the values carried by [std::any] *)
  Any : Type;
}.

(** ** Field types *)

Inductive FieldType :=
  | INT32 | INT64 | UINT32 | UINT64 | FLOAT | DOUBLE
  | STRING | BOOL | BYTES | MESSAGE.

(** ** Field and message descriptors *)

Module Descriptor.
Section Descriptor.
Context `{CxxRuntime}.

Record FieldDescriptor := {
  name : string;
  type : FieldType;
  field_number : Z;
  getter : Obj -> Any;
  setter : Obj -> Any -> Obj;
}.

Record MessageDescriptor := {
  message_name : string;
  fields : list FieldDescriptor;
}.

(** [fields.push_back(field)] *)
Definition AddField (field : FieldDescriptor) (d : MessageDescriptor)
  : MessageDescriptor :=
  {| message_name := message_name d; fields := fields d ++ [field] |}.

(** The range-for loop of [GetField] and [GetFieldByNumber]: the first
    element satisfying the test, [None] for [nullptr]. *)
Fixpoint first_field (test : FieldDescriptor -> bool)
    (fs : list FieldDescriptor) : option FieldDescriptor :=
  match fs with
  | [] => None
  | field :: rest => if test field then Some field else first_field test rest
  end.

Definition GetField (n : string) (d : MessageDescriptor)
  : option FieldDescriptor :=
  first_field (fun field => bool_decide (name field = n)) (fields d).

Definition GetFieldByNumber (number : Z) (d : MessageDescriptor)
  : option FieldDescriptor :=
  first_field (fun field => bool_decide (field_number field = number))
              (fields d).

(** A descriptor under construction receives its fields one call after the
    other. *)
Definition AddFields (fs : list FieldDescriptor) (d : MessageDescriptor)
  : MessageDescriptor :=
  foldl (fun acc field => AddField field acc) d fs.

End Descriptor.
End Descriptor.

(** ** Type name registry ([type_registry.h]) *)

Section Demangle.
Context `{CxxRuntime}.

(** [DemangleTypeName]: the demangled name, or the mangled one when
    demangling fails. *)
Definition DemangleTypeName (mangled_name : string) : string :=
  match cxa_demangle mangled_name with
  | Some demangled => demangled
  | None => mangled_name
  end.

Definition GetDemangledTypeName (T : CppType) : string :=
  DemangleTypeName (typeid_name T).
End Demangle.

Module TypeRegistry.
Section TypeRegistry.
Context `{CxxRuntime}.

Record t := {
  (** mangled type name to registered name *)
  type_names_ : gmap string string;
  (** registered name back to mangled type name *)
  name_to_type_id_ : gmap string string;
}.

(** The state of the function-local static before any registration. *)
Definition Instance : t :=
  {| type_names_ := ∅; name_to_type_id_ := ∅ |}.

(** The name [RegisterType<T>(custom_name)] stores: the local variable
    [type_name] of the source. *)
Definition registered_name (T : CppType) (custom_name : string) : string :=
  if decide (custom_name = "")
  then DemangleTypeName (typeid_name T)
  else custom_name.

Definition RegisterType (T : CppType) (custom_name : string) (r : t) : t :=
  let type_id := typeid_name T in
  let type_name := registered_name T custom_name in
  {| type_names_ := <[type_id := type_name]> (type_names_ r);
     name_to_type_id_ := <[type_name := type_id]> (name_to_type_id_ r) |}.

Definition GetTypeName (T : CppType) (r : t) : string :=
  match type_names_ r !! typeid_name T with
  | Some registered => registered
  | None => ""
  end.

Definition IsTypeRegistered (T : CppType) (r : t) : bool :=
  match type_names_ r !! typeid_name T with
  | Some _ => true
  | None => false
  end.

Definition HasTypeName (type_name : string) (r : t) : bool :=
  match name_to_type_id_ r !! type_name with
  | Some _ => true
  | None => false
  end.

(** The vector is filled in the map's iteration order, which the source
    leaves to the hash table. *)
Definition GetAllTypeNames (r : t) : list string :=
  (map_to_list (type_names_ r)).*2.

Definition GetRegisteredTypeCount (r : t) : nat :=
  size (type_names_ r).

Definition Clear (r : t) : t :=
  {| type_names_ := ∅; name_to_type_id_ := ∅ |}.

(** *** Histories of mutating calls *)

Inductive Call :=
  | CallRegisterType (T : CppType) (custom_name : string)
  | CallClear.

Definition step (r : t) (c : Call) : t :=
  match c with
  | CallRegisterType T custom_name => RegisterType T custom_name r
  | CallClear => Clear r
  end.

Definition run (calls : list Call) (r : t) : t := foldl step r calls.

(** The type identities registered by [calls] and not wiped by a later
    [Clear]. *)
Definition live_type_ids (calls : list Call) : list string :=
  foldl (fun acc c =>
           match c with
           | CallRegisterType T _ => typeid_name T :: acc
           | CallClear => []
           end) [] calls.

Definition is_register (c : Call) : bool :=
  match c with CallRegisterType _ _ => true | CallClear => false end.

End TypeRegistry.
End TypeRegistry.

(** ** Reflection registry *)

Module ReflectionRegistry.
Section ReflectionRegistry.
Context `{CxxRuntime}.
Import Descriptor.

Record t := { descriptors_ : gmap string MessageDescriptor }.

Definition Instance : t := {| descriptors_ := ∅ |}.

Definition RegisterType (type_name : string) (descriptor : MessageDescriptor)
    (r : t) : t :=
  {| descriptors_ := <[type_name := descriptor]> (descriptors_ r) |}.

Definition GetDescriptor (type_name : string) (r : t)
  : option MessageDescriptor :=
  descriptors_ r !! type_name.

Definition HasType (type_name : string) (r : t) : bool :=
  match descriptors_ r !! type_name with
  | Some _ => true
  | None => false
  end.

Definition GetRegisteredTypes (r : t) : list string :=
  (map_to_list (descriptors_ r)).*1.

Definition Clear (r : t) : t := {| descriptors_ := ∅ |}.

(** [GRLRPC_REGISTER_TYPE(class_type, ...)]: [class_type_token] is the
    stringised macro argument [#class_type] and [va_args] the statements
    spliced in between, which act on the local [desc]. *)
Definition GRLRPC_REGISTER_TYPE (class_type_token : string)
    (va_args : MessageDescriptor -> MessageDescriptor) (r : t) : t :=
  let desc := {| message_name := class_type_token; fields := [] |} in
  RegisterType class_type_token (va_args desc) r.

End ReflectionRegistry.
End ReflectionRegistry.

(** ** Serializer interfaces

    A serializer is known to the framework only through its virtual member
    functions, so an implementation is the record of what they compute.  The
    [std::string& output] and [T& obj] arguments are passed in, and their
    value after the call is returned next to the [bool]. *)

Module ISerializer.
Section ISerializer.
Context `{CxxRuntime}.
Import Descriptor.

Record t := {
  Serialize : Obj -> MessageDescriptor -> string -> bool * string;
  Deserialize : string -> Obj -> MessageDescriptor -> bool * Obj;
  GetName : string;
}.
End ISerializer.
End ISerializer.

Module ITypeSerializer.
Section ITypeSerializer.
Context `{CxxRuntime}.

(** [ITypeSerializer<T>]; the instantiation [T] is recorded by the
    wrapper below. *)
Record t := {
  Serialize : Obj -> string -> bool * string;
  Deserialize : string -> Obj -> bool * Obj;
  GetName : string;
}.
End ITypeSerializer.
End ITypeSerializer.

Module TypeSerializerWrapper.
Section TypeSerializerWrapper.
Context `{CxxRuntime}.

(** An [ITypeSerializerBase] object: every one is a
    [TypeSerializerWrapper<T>] for some [T], owning a possibly null
    [serializer_]. *)
Record ITypeSerializerBase := {
  wrapped_type : CppType;
  serializer_ : option ITypeSerializer.t;
}.

(** [std::make_unique<TypeSerializerWrapper<T>>(std::move(serializer))] *)
Definition make (T : CppType) (serializer : option ITypeSerializer.t)
  : ITypeSerializerBase :=
  {| wrapped_type := T; serializer_ := serializer |}.

Definition Get (w : ITypeSerializerBase) : option ITypeSerializer.t :=
  serializer_ w.

(** [dynamic_cast<TypeSerializerWrapper<T>*>(base)] *)
Definition dynamic_cast (T : CppType) (base : ITypeSerializerBase)
  : option ITypeSerializerBase :=
  if decide (wrapped_type base = T) then Some base else None.
End TypeSerializerWrapper.
End TypeSerializerWrapper.

(** ** Serializer registry *)

Module SerializerRegistry.
Section SerializerRegistry.
Context `{CxxRuntime}.
Import TypeSerializerWrapper.

Record t := {
  serializers_ : gmap string (option ISerializer.t);
  type_serializers_ : gmap string ITypeSerializerBase;
}.

Definition Instance : t :=
  {| serializers_ := ∅; type_serializers_ := ∅ |}.

Definition MakeTypeSerializerKey (T : CppType) (serializer_name : string)
  : string :=
  typeid_name T +:+ ":" +:+ serializer_name.

Definition RegisterSerializer (name : string)
    (serializer : option ISerializer.t) (r : t) : t :=
  {| serializers_ := <[name := serializer]> (serializers_ r);
     type_serializers_ := type_serializers_ r |}.

Definition GetSerializer (name : string) (r : t) : option ISerializer.t :=
  match serializers_ r !! name with
  | Some ptr => ptr
  | None => None
  end.

Definition RegisterTypeSerializer (T : CppType) (serializer_name : string)
    (serializer : option ITypeSerializer.t) (r : t) : t :=
  let key := MakeTypeSerializerKey T serializer_name in
  {| serializers_ := serializers_ r;
     type_serializers_ := <[key := make T serializer]> (type_serializers_ r) |}.

Definition GetTypeSerializer (T : CppType) (serializer_name : string)
    (r : t) : option ITypeSerializer.t :=
  let key := MakeTypeSerializerKey T serializer_name in
  match type_serializers_ r !! key with
  | Some base =>
      match dynamic_cast T base with
      | Some wrapper => Get wrapper
      | None => None
      end
  | None => None
  end.

Definition HasTypeSerializer (T : CppType) (serializer_name : string)
    (r : t) : bool :=
  let key := MakeTypeSerializerKey T serializer_name in
  match type_serializers_ r !! key with
  | Some _ => true
  | None => false
  end.

Definition Clear (r : t) : t :=
  {| serializers_ := ∅; type_serializers_ := ∅ |}.
End SerializerRegistry.
End SerializerRegistry.

(** ** Observing what a dispatch touches

    The factory is written in a writer monad that records, in program order,
    each registry lookup it performs and each serializer member function it
    invokes. *)

Inductive Event :=
  | FindTypeSerializer (key : string)
  | FindSerializer (name : string)
  | FindDescriptor (type_name : string)
  | InvokeTypeSerialize
  | InvokeTypeDeserialize
  | InvokeGenericSerialize
  | InvokeGenericDeserialize.

Definition Traced (A : Type) : Type := A * list Event.

Definition ret {A} (a : A) : Traced A := (a, []).

Definition bind {A B} (m : Traced A) (k : A -> Traced B) : Traced B :=
  let '(a, before) := m in
  let '(b, after) := k a in
  (b, before ++ after).

Definition observe {A} (e : Event) (a : A) : Traced A := (a, [e]).

Definition result {A} (m : Traced A) : A := fst m.
Definition trace {A} (m : Traced A) : list Event := snd m.

Notation "'let*' x := m 'in' k" := (bind m (fun x => k))
  (at level 10, x name, m at level 100, k at level 200, only parsing).

(** The events that reach past the specialised tier. *)
Definition generic_tier (e : Event) : bool :=
  match e with
  | FindSerializer _ | FindDescriptor _
  | InvokeGenericSerialize | InvokeGenericDeserialize => true
  | _ => false
  end.

(** The events that run serializer code. *)
Definition invokes_serializer (e : Event) : bool :=
  match e with
  | InvokeTypeSerialize | InvokeTypeDeserialize
  | InvokeGenericSerialize | InvokeGenericDeserialize => true
  | _ => false
  end.

(** ** Serializer factory *)

Module SerializerFactory.
Section SerializerFactory.
Context `{CxxRuntime}.

(** [GetDemangled<T>()] *)
Definition GetDemangled (T : CppType) : string :=
  match cxa_demangle (typeid_name T) with
  | Some demangled => demangled
  | None => typeid_name T
  end.

Definition Serialize (T : CppType) (obj : Obj) (serializer_name : string)
    (output : string)
    (sr : SerializerRegistry.t) (rr : ReflectionRegistry.t)
  : Traced (bool * string) :=
  let* type_serializer :=
    observe (FindTypeSerializer
               (SerializerRegistry.MakeTypeSerializerKey T serializer_name))
            (SerializerRegistry.GetTypeSerializer T serializer_name sr) in
  match type_serializer with
  | Some ts => observe InvokeTypeSerialize
                       (ITypeSerializer.Serialize ts obj output)
  | None =>
      let* generic_serializer :=
        observe (FindSerializer serializer_name)
                (SerializerRegistry.GetSerializer serializer_name sr) in
      match generic_serializer with
      | Some gs =>
          let type_name := GetDemangled T in
          let* descriptor :=
            observe (FindDescriptor type_name)
                    (ReflectionRegistry.GetDescriptor type_name rr) in
          match descriptor with
          | Some desc => observe InvokeGenericSerialize
                                 (ISerializer.Serialize gs obj desc output)
          | None => ret (false, output)
          end
      | None => ret (false, output)
      end
  end.

Definition Deserialize (T : CppType) (input : string) (obj : Obj)
    (serializer_name : string)
    (sr : SerializerRegistry.t) (rr : ReflectionRegistry.t)
  : Traced (bool * Obj) :=
  let* type_serializer :=
    observe (FindTypeSerializer
               (SerializerRegistry.MakeTypeSerializerKey T serializer_name))
            (SerializerRegistry.GetTypeSerializer T serializer_name sr) in
  match type_serializer with
  | Some ts => observe InvokeTypeDeserialize
                       (ITypeSerializer.Deserialize ts input obj)
  | None =>
      let* generic_serializer :=
        observe (FindSerializer serializer_name)
                (SerializerRegistry.GetSerializer serializer_name sr) in
      match generic_serializer with
      | Some gs =>
          let type_name := GetDemangled T in
          let* descriptor :=
            observe (FindDescriptor type_name)
                    (ReflectionRegistry.GetDescriptor type_name rr) in
          match descriptor with
          | Some desc => observe InvokeGenericDeserialize
                                 (ISerializer.Deserialize gs input obj desc)
          | None => ret (false, obj)
          end
      | None => ret (false, obj)
      end
  end.
End SerializerFactory.
End SerializerFactory.

(** ** Field type names ([src/serialization_framework.cpp])

    The ten constructors of [FieldType] are the ten enumerators; the
    [default] branch of the switch, reached only by a value cast from an
    integer that names no enumerator, has no counterpart here. *)

Definition FieldTypeToString (type : FieldType) : string :=
  match type with
  | INT32 => "INT32"
  | INT64 => "INT64"
  | UINT32 => "UINT32"
  | UINT64 => "UINT64"
  | FLOAT => "FLOAT"
  | DOUBLE => "DOUBLE"
  | STRING => "STRING"
  | BOOL => "BOOL"
  | BYTES => "BYTES"
  | MESSAGE => "MESSAGE"
  end.

Definition StringToFieldType (str : string) : FieldType :=
  if decide (str = "INT32") then INT32
  else if decide (str = "INT64") then INT64
  else if decide (str = "UINT32") then UINT32
  else if decide (str = "UINT64") then UINT64
  else if decide (str = "FLOAT") then FLOAT
  else if decide (str = "DOUBLE") then DOUBLE
  else if decide (str = "STRING") then STRING
  else if decide (str = "BOOL") then BOOL
  else if decide (str = "BYTES") then BYTES
  else if decide (str = "MESSAGE") then MESSAGE
  else STRING.

(** The strings [StringToFieldType] tests for, in the order of its tests. *)
Definition field_type_names : list string :=
  ["INT32"; "INT64"; "UINT32"; "UINT64"; "FLOAT"; "DOUBLE"; "STRING";
   "BOOL"; "BYTES"; "MESSAGE"].

(** ** Static registrars

    What the constructor of the registrar object does to the registry when
    static initialisation reaches it. *)

Section Registrars.
Context `{CxxRuntime}.
Import Descriptor.

(** [REGISTER_TYPE(type_class)] *)
Definition REGISTER_TYPE (type_class : CppType) (r : TypeRegistry.t)
  : TypeRegistry.t :=
  TypeRegistry.RegisterType type_class "" r.

(** [REGISTER_TYPE_WITH_NAME(type_class, custom_name)] *)
Definition REGISTER_TYPE_WITH_NAME (type_class : CppType)
    (custom_name : string) (r : TypeRegistry.t) : TypeRegistry.t :=
  TypeRegistry.RegisterType type_class custom_name r.

(** The function [RegisterReflection] that
    [GRLRPC_BEGIN_TYPE_REGISTRATION(class_type)] opens and
    [GRLRPC_END_TYPE_REGISTRATION(class_type)] closes, with [body] the
    statements written between the two. *)
Definition RegisterReflection (class_type_token : string)
    (body : MessageDescriptor -> MessageDescriptor)
    (r : ReflectionRegistry.t) : ReflectionRegistry.t :=
  let desc := {| message_name := class_type_token; fields := [] |} in
  ReflectionRegistry.RegisterType class_type_token (body desc) r.

End Registrars.

(** ** Characters of a key *)

(** Whether [c] occurs in [s]. *)
Fixpoint occurs (c : ascii) (s : string) : bool :=
  match s with
  | EmptyString => false
  | String a rest => if decide (a = c) then true else occurs c rest
  end.

(** ** A concrete runtime

    A handful of types as g++ names them, used to run the model on concrete
    inputs: [Point] at global scope, [foo::Point], the three classes of
    [tests/type_registry_test.cpp], and two distinct classes both called
    [Tag] in the unnamed namespaces of two translation units, whose
    [typeid] names coincide. *)

Module Demo.

Inductive DemoType :=
  | Point | FooPoint | TestClass1 | TestClass2 | NestedClass | TagA | TagB.

#[export] Instance DemoType_eq_dec : EqDecision DemoType.
Proof. solve_decision. Defined.

Definition demo_typeid_name (T : DemoType) : string :=
  match T with
  | Point => "5Point"
  | FooPoint => "N3foo5PointE"
  | TestClass1 => "10TestClass1"
  | TestClass2 => "10TestClass2"
  | NestedClass => "N6nested11NestedClassE"
  | TagA | TagB => "N12_GLOBAL__N_13TagE"
  end.

Definition demo_demangle (mangled : string) : option string :=
  if decide (mangled = "5Point") then Some "Point"
  else if decide (mangled = "N3foo5PointE") then Some "foo::Point"
  else if decide (mangled = "10TestClass1") then Some "TestClass1"
  else if decide (mangled = "10TestClass2") then Some "TestClass2"
  else if decide (mangled = "N6nested11NestedClassE")
       then Some "nested::NestedClass"
  else if decide (mangled = "N12_GLOBAL__N_13TagE")
       then Some "(anonymous namespace)::Tag"
  else None.

(** Objects are points [{x, y}]; field values are integers. *)
#[export] Instance runtime : CxxRuntime := {|
  CppType := DemoType;
  typeid_name := demo_typeid_name;
  cxa_demangle := demo_demangle;
  Obj := Z * Z;
  Any := Z;
|}.

Import Descriptor.

Definition field_x : @FieldDescriptor runtime :=
  {| name := "x"; type := INT32; field_number := 1;
     getter := fun obj : @Obj runtime => fst obj;
     setter := fun (obj : @Obj runtime) (v : @Any runtime) => (v, snd obj) |}.

Definition field_y : @FieldDescriptor runtime :=
  {| name := "y"; type := INT32; field_number := 2;
     getter := fun obj : @Obj runtime => snd obj;
     setter := fun (obj : @Obj runtime) (v : @Any runtime) => (fst obj, v) |}.

(** The statements between the parentheses of
    [GRLRPC_REGISTER_TYPE(Point, ...)]. *)
Definition point_fields (desc : @MessageDescriptor runtime)
  : @MessageDescriptor runtime :=
  AddField field_y (AddField field_x desc).

Definition point_desc : @MessageDescriptor runtime :=
  point_fields {| message_name := "Point"; fields := [] |}.

(** A specialised codec for points that knows two documents. *)
Definition bin_point : @ITypeSerializer.t runtime :=
  {| ITypeSerializer.Serialize := fun (obj : @Obj runtime) output =>
       if decide (obj = (1, 2)%Z) then (true, "0102")
       else if decide (obj = (3, 4)%Z) then (true, "0304")
       else (false, output);
     ITypeSerializer.Deserialize := fun input (obj : @Obj runtime) =>
       if decide (input = "0102") then (true, (1, 2)%Z)
       else if decide (input = "0304") then (true, (3, 4)%Z)
       else (false, obj);
     ITypeSerializer.GetName := "bin" |}.

(** A specialised codec that rejects everything. *)
Definition reject_point : @ITypeSerializer.t runtime :=
  {| ITypeSerializer.Serialize := fun (obj : @Obj runtime) output => (false, output);
     ITypeSerializer.Deserialize := fun input (obj : @Obj runtime) => (false, obj);
     ITypeSerializer.GetName := "bin" |}.

(** A generic backend: it reads and writes the object only through the
    descriptor's accessors, and knows the documents of [{1,2}] and
    [{3,4}]. *)
Definition json : @ISerializer.t runtime :=
  {| ISerializer.Serialize := fun (obj : @Obj runtime) desc output =>
       let values := (fun fd => getter fd obj) <$> fields desc in
       if decide (values = [1; 2]%Z) then (true, "{1,2}")
       else if decide (values = [3; 4]%Z) then (true, "{3,4}")
       else (false, output);
     ISerializer.Deserialize := fun input (obj : @Obj runtime) desc =>
       let store (values : list Z) : @Obj runtime :=
         foldl (fun o fv => setter (fst fv) o (snd fv)) obj
               (zip (fields desc) values) in
       if decide (input = "{1,2}") then (true, store [1; 2]%Z)
       else if decide (input = "{3,4}") then (true, store [3; 4]%Z)
       else (false, obj);
     ISerializer.GetName := "json" |}.

(** A generic backend that rejects everything. *)
Definition reject_all : @ISerializer.t runtime :=
  {| ISerializer.Serialize := fun (obj : @Obj runtime) desc output => (false, output);
     ISerializer.Deserialize := fun input (obj : @Obj runtime) desc => (false, obj);
     ISerializer.GetName := "json" |}.

(** A generic backend that writes nothing and reads nothing, and reports
    success both ways. *)
Definition lossy : @ISerializer.t runtime :=
  {| ISerializer.Serialize := fun (obj : @Obj runtime) desc output => (true, "");
     ISerializer.Deserialize := fun input (obj : @Obj runtime) desc => (true, obj);
     ISerializer.GetName := "json" |}.

(** Registries as start-up code leaves them. *)

(** [RegisterTypeSerializer<Point>("bin", ...)] and nothing else. *)
Definition sr_bin : @SerializerRegistry.t runtime :=
  SerializerRegistry.RegisterTypeSerializer Point "bin" (Some bin_point)
    SerializerRegistry.Instance.

Definition sr_bin_reject : @SerializerRegistry.t runtime :=
  SerializerRegistry.RegisterTypeSerializer Point "bin" (Some reject_point)
    SerializerRegistry.Instance.

(** [RegisterTypeSerializer<TagA>("bin", ...)]: the key is the one
    [TagB] computes. *)
Definition sr_tag : @SerializerRegistry.t runtime :=
  SerializerRegistry.RegisterTypeSerializer TagA "bin" (Some bin_point)
    SerializerRegistry.Instance.

Definition sr_json : @SerializerRegistry.t runtime :=
  SerializerRegistry.RegisterSerializer "json" (Some json)
    SerializerRegistry.Instance.

Definition sr_reject_all : @SerializerRegistry.t runtime :=
  SerializerRegistry.RegisterSerializer "json" (Some reject_all)
    SerializerRegistry.Instance.

Definition sr_lossy : @SerializerRegistry.t runtime :=
  SerializerRegistry.RegisterSerializer "json" (Some lossy)
    SerializerRegistry.Instance.

(** [GRLRPC_REGISTER_TYPE(Point, ...)] with the two field registrations;
    the token is [Point] whether the macro is expanded at global scope for
    [::Point] or inside [namespace foo] for [foo::Point]. *)
Definition rr_point : @ReflectionRegistry.t runtime :=
  ReflectionRegistry.GRLRPC_REGISTER_TYPE "Point" point_fields
    ReflectionRegistry.Instance.

(** The registrations of tests 1 and 2 of [tests/type_registry_test.cpp]. *)
Definition test_calls : list (@TypeRegistry.Call runtime) :=
  [TypeRegistry.CallRegisterType TestClass1 "";
   TypeRegistry.CallRegisterType TestClass2 "CustomName"].

End Demo.

(** * Properties *)

(** ** Message descriptors *)

Section DescriptorFacts.
Context `{CxxRuntime}.
Import Descriptor.

Lemma AddFields_fields (fs : list FieldDescriptor) (d : MessageDescriptor) :
  fields (AddFields fs d) = fields d ++ fs.
Proof.
  unfold AddFields. revert d.
  induction fs as [|field fs IH]; intros d; simpl.
  - by rewrite app_nil_r.
  - rewrite IH. simpl. by rewrite <- app_assoc.
Qed.

Lemma AddFields_message_name (fs : list FieldDescriptor)
    (d : MessageDescriptor) :
  message_name (AddFields fs d) = message_name d.
Proof.
  unfold AddFields. revert d.
  induction fs as [|field fs IH]; intros d; simpl; [done|].
  by rewrite IH.
Qed.

Lemma first_field_None test (fs : list FieldDescriptor) :
  first_field test fs = None ↔ ∀ fd, fd ∈ fs → test fd = false.
Proof.
  induction fs as [|field fs IH]; simpl.
  - split; [|done]. intros _ fd Hin. by apply elem_of_nil in Hin.
  - destruct (test field) eqn:Htest.
    + split; [done|]. intros Hall.
      specialize (Hall field (list_elem_of_here _ _)). congruence.
    + rewrite IH. split.
      * intros Hall fd Hin. apply elem_of_cons in Hin as [->|Hin]; auto.
      * intros Hall fd Hin. apply Hall. by apply list_elem_of_further.
Qed.

Lemma first_field_Some test (fs : list FieldDescriptor) fd :
  first_field test fs = Some fd ↔
  ∃ before after, fs = before ++ fd :: after ∧ test fd = true ∧
                  ∀ g, g ∈ before → test g = false.
Proof.
  induction fs as [|field fs IH]; simpl.
  - split; [done|]. intros (before & after & Heq & _).
    by destruct before.
  - destruct (test field) eqn:Htest.
    + split.
      * intros [= ->]. exists [], fs. repeat split; [done|].
        intros g Hin. by apply elem_of_nil in Hin.
      * intros (before & after & Heq & Hfd & Hbefore).
        destruct before as [|b before]; injection Heq as -> ->; [done|].
        specialize (Hbefore b (list_elem_of_here _ _)). congruence.
    + rewrite IH. split.
      * intros (before & after & -> & Hfd & Hbefore).
        exists (field :: before), after. repeat split; [done|].
        intros g Hin. apply elem_of_cons in Hin as [->|Hin]; auto.
      * intros (before & after & Heq & Hfd & Hbefore).
        destruct before as [|b before]; injection Heq as -> ->; [congruence|].
        exists before, after. repeat split; [done|].
        intros g Hin. apply Hbefore. by apply list_elem_of_further.
Qed.

(** C7. The fields of a descriptor are exactly the fields added to it, in
    the order of the [AddField] calls; [GetField] and [GetFieldByNumber]
    answer [None] (the null pointer) exactly when no field carries the
    name, respectively the number, and otherwise answer the first field
    that does. *)
Theorem MessageDescriptor_order_and_lookup (d : MessageDescriptor) :
  (∀ field, fields (AddField field d) = fields d ++ [field]) ∧
  (∀ fs, fields (AddFields fs d) = fields d ++ fs) ∧
  (∀ n, GetField n d = None ↔ ∀ fd, fd ∈ fields d → name fd ≠ n) ∧
  (∀ n fd, GetField n d = Some fd ↔
     ∃ before after, fields d = before ++ fd :: after ∧ name fd = n ∧
                     ∀ g, g ∈ before → name g ≠ n) ∧
  (∀ k, GetFieldByNumber k d = None ↔
     ∀ fd, fd ∈ fields d → field_number fd ≠ k) ∧
  (∀ k fd, GetFieldByNumber k d = Some fd ↔
     ∃ before after, fields d = before ++ fd :: after ∧
                     field_number fd = k ∧
                     ∀ g, g ∈ before → field_number g ≠ k).
Proof.
  split; [done|]. split; [intros fs; apply AddFields_fields|].
  unfold GetField, GetFieldByNumber.
  repeat split.
  - intros Hnone fd Hin. rewrite first_field_None in Hnone.
    specialize (Hnone fd Hin). by apply bool_decide_eq_false in Hnone.
  - intros Hall. apply first_field_None. intros fd Hin.
    apply bool_decide_eq_false. auto.
  - intros Hsome. apply first_field_Some in Hsome
      as (before & after & Heq & Hfd & Hbefore).
    exists before, after. repeat split; [done|by apply bool_decide_eq_true in Hfd|].
    intros g Hin. specialize (Hbefore g Hin).
    by apply bool_decide_eq_false in Hbefore.
  - intros (before & after & Heq & Hfd & Hbefore).
    apply first_field_Some. exists before, after.
    repeat split; [done|by apply bool_decide_eq_true|].
    intros g Hin. apply bool_decide_eq_false. auto.
  - intros Hnone fd Hin. rewrite first_field_None in Hnone.
    specialize (Hnone fd Hin). by apply bool_decide_eq_false in Hnone.
  - intros Hall. apply first_field_None. intros fd Hin.
    apply bool_decide_eq_false. auto.
  - intros Hsome. apply first_field_Some in Hsome
      as (before & after & Heq & Hfd & Hbefore).
    exists before, after. repeat split; [done|by apply bool_decide_eq_true in Hfd|].
    intros g Hin. specialize (Hbefore g Hin).
    by apply bool_decide_eq_false in Hbefore.
  - intros (before & after & Heq & Hfd & Hbefore).
    apply first_field_Some. exists before, after.
    repeat split; [done|by apply bool_decide_eq_true|].
    intros g Hin. apply bool_decide_eq_false. auto.
Qed.

End DescriptorFacts.

(** ** Type name registry *)

Section TypeRegistryFacts.
Context `{CxxRuntime}.
Import TypeRegistry.

Lemma run_snoc (calls : list Call) (c : Call) (r : t) :
  run (calls ++ [c]) r = step (run calls r) c.
Proof. unfold run. apply foldl_snoc. Qed.

Lemma live_type_ids_snoc (calls : list Call) (c : Call) :
  live_type_ids (calls ++ [c]) =
  match c with
  | CallRegisterType T _ => typeid_name T :: live_type_ids calls
  | CallClear => []
  end.
Proof. unfold live_type_ids. by rewrite foldl_snoc. Qed.

(** The keys of [type_names_] are the identities registered since the last
    [Clear]. *)
Lemma run_type_names (calls : list Call) (type_id : string) :
  type_names_ (run calls Instance) !! type_id = None ↔
  type_id ∉ live_type_ids calls.
Proof.
  induction calls as [|c calls IH] using rev_ind.
  - simpl. rewrite lookup_empty. split; [|done].
    intros _ Hin. by apply elem_of_nil in Hin.
  - rewrite run_snoc, live_type_ids_snoc. destruct c as [T custom|]; simpl.
    + rewrite lookup_insert_None, not_elem_of_cons, IH.
      split; intros [? ?]; split; congruence.
    + rewrite lookup_empty. split; [|done].
      intros _ Hin. by apply elem_of_nil in Hin.
Qed.

Lemma absent_type (r : t) (T : CppType) :
  type_names_ r !! typeid_name T = None →
  GetTypeName T r = "" ∧ IsTypeRegistered T r = false.
Proof. intros Hnone. unfold GetTypeName, IsTypeRegistered. by rewrite Hnone. Qed.

(** C5, as the code has it.  The registry knows a type by its [typeid]
    name.  A type under whose [typeid] name nothing was registered since the
    registry was created or last cleared has the empty string as its name
    and is reported as not registered. *)
Theorem unregistered_type_is_absent (calls : list Call) (T : CppType) :
  typeid_name T ∉ live_type_ids calls →
  GetTypeName T (run calls Instance) = "" ∧
  IsTypeRegistered T (run calls Instance) = false.
Proof. intros Hlive. apply absent_type. by apply run_type_names. Qed.

Lemma registered_name_custom (T : CppType) (n : string) :
  n ≠ "" → registered_name T n = n.
Proof. intros Hn. unfold registered_name. by rewrite decide_False. Qed.

Lemma registered_name_default (T : CppType) :
  registered_name T "" = DemangleTypeName (typeid_name T).
Proof. done. Qed.

Lemma GetTypeName_RegisterType (r : t) (T : CppType) (n : string) :
  GetTypeName T (RegisterType T n r) = registered_name T n.
Proof. unfold GetTypeName, RegisterType. simpl. by rewrite lookup_insert_eq. Qed.

Lemma reverse_entry_RegisterType (r : t) (T : CppType) (n : string) :
  name_to_type_id_ (RegisterType T n r) !! registered_name T n =
  Some (typeid_name T).
Proof. unfold RegisterType. simpl. by rewrite lookup_insert_eq. Qed.

Lemma reverse_entry_custom (r : t) (T : CppType) (n : string) :
  n ≠ "" →
  name_to_type_id_ (RegisterType T n r) !! n = Some (typeid_name T).
Proof.
  intros Hn. pose proof (reverse_entry_RegisterType r T n) as Hentry.
  by rewrite (registered_name_custom T n Hn) in Hentry.
Qed.

Lemma HasTypeName_RegisterType_mono (r : t) (T : CppType) (n m : string) :
  HasTypeName m r = true → HasTypeName m (RegisterType T n r) = true.
Proof.
  unfold HasTypeName, RegisterType. simpl.
  destruct (decide (registered_name T n = m)) as [->|Hne].
  - by rewrite lookup_insert_eq.
  - by rewrite lookup_insert_ne.
Qed.

Lemma HasTypeName_run_mono (calls : list Call) (r : t) (m : string) :
  Forall (λ c, is_register c = true) calls →
  HasTypeName m r = true → HasTypeName m (run calls r) = true.
Proof.
  intros Hcalls. revert r.
  induction Hcalls as [|c calls Hc _ IH]; intros r Hm; [done|].
  destruct c as [T n|]; [|done].
  simpl. apply IH. by apply HasTypeName_RegisterType_mono.
Qed.

(** C6, as the code has it.  Registering a type again replaces its name,
    and registering a name again replaces the type it leads back to,
    whenever the name passed is not the empty string; no call fails.  (The
    empty string stands for "no custom name": see
    [GetTypeName_RegisterType] and [registered_name_default].) *)
Theorem registration_last_write_wins
    (r : t) (T T1 T2 : CppType) (n1 n2 n : string) :
  n2 ≠ "" → n ≠ "" →
  GetTypeName T (RegisterType T n2 (RegisterType T n1 r)) = n2 ∧
  name_to_type_id_ (RegisterType T2 n (RegisterType T1 n r)) !! n =
    Some (typeid_name T2) ∧
  HasTypeName n (RegisterType T2 n (RegisterType T1 n r)) = true.
Proof.
  intros Hn2 Hn. split; [|split].
  - by rewrite GetTypeName_RegisterType, registered_name_custom.
  - by apply reverse_entry_custom.
  - unfold HasTypeName. by rewrite reverse_entry_custom.
Qed.

(** C10, as the code has it.  After a type registered under a non-empty
    name [n1] is registered again under [n2], the reverse map still holds
    the entry from [n1] to the type; the name stays present through any
    further registrations, and goes with [Clear]. *)
Theorem stale_name_survives_reregistration
    (r : t) (T : CppType) (n1 n2 : string) (calls : list Call) :
  n1 ≠ "" →
  Forall (λ c, is_register c = true) calls →
  let r2 := RegisterType T n2 (RegisterType T n1 r) in
  HasTypeName n1 r2 = true ∧
  name_to_type_id_ r2 !! n1 = Some (typeid_name T) ∧
  HasTypeName n1 (run calls r2) = true ∧
  HasTypeName n1 (Clear (run calls r2)) = false.
Proof.
  intros Hn1 Hcalls r2.
  assert (Hentry : name_to_type_id_ r2 !! n1 = Some (typeid_name T)).
  { unfold r2, RegisterType at 1. simpl.
    destruct (decide (registered_name T n2 = n1)) as [->|Hne].
    - by rewrite lookup_insert_eq.
    - rewrite lookup_insert_ne by done.
      by apply reverse_entry_custom. }
  assert (Hhas : HasTypeName n1 r2 = true).
  { unfold HasTypeName. by rewrite Hentry. }
  split; [done|]. split; [done|].
  split; [by apply HasTypeName_run_mono|done].
Qed.

End TypeRegistryFacts.

(** ** Serializer registry *)

Section SerializerRegistryFacts.
Context `{CxxRuntime}.
Import TypeSerializerWrapper SerializerRegistry.

Lemma GetTypeSerializer_RegisterTypeSerializer
    (r : t) (T : CppType) (f : string) (s : option ITypeSerializer.t) :
  GetTypeSerializer T f (RegisterTypeSerializer T f s r) = s.
Proof.
  unfold GetTypeSerializer, RegisterTypeSerializer. simpl.
  rewrite lookup_insert_eq. unfold dynamic_cast, make. simpl.
  by rewrite decide_True.
Qed.

Lemma GetSerializer_RegisterSerializer
    (r : t) (f : string) (s : option ISerializer.t) :
  GetSerializer f (RegisterSerializer f s r) = s.
Proof.
  unfold GetSerializer, RegisterSerializer. simpl.
  by rewrite lookup_insert_eq.
Qed.

Lemma GetTypeSerializer_RegisterSerializer
    (r : t) (T : CppType) (f g : string) (s : option ISerializer.t) :
  GetTypeSerializer T f (RegisterSerializer g s r) = GetTypeSerializer T f r.
Proof. done. Qed.

Lemma GetTypeSerializer_absent (r : t) (T : CppType) (f : string) :
  type_serializers_ r !! MakeTypeSerializerKey T f = None →
  GetTypeSerializer T f r = None.
Proof. intros Hnone. unfold GetTypeSerializer. by rewrite Hnone. Qed.

(** C8. When the wrapper stored under the key of [(T, f)] wraps a
    serializer for another type, the cast fails and [GetTypeSerializer<T>]
    answers the null pointer, as every registry without an entry under
    that key does. *)
Theorem mismatched_wrapper_is_not_found
    (r : t) (T : CppType) (f : string) (base : ITypeSerializerBase) :
  type_serializers_ r !! MakeTypeSerializerKey T f = Some base →
  wrapped_type base ≠ T →
  GetTypeSerializer T f r = None ∧
  ∀ r' : t, type_serializers_ r' !! MakeTypeSerializerKey T f = None →
            GetTypeSerializer T f r' = GetTypeSerializer T f r.
Proof.
  intros Hfound Hother.
  assert (Hnull : GetTypeSerializer T f r = None).
  { unfold GetTypeSerializer. rewrite Hfound.
    unfold dynamic_cast. by rewrite decide_False. }
  split; [done|].
  intros r' Habsent. rewrite Hnull. by apply GetTypeSerializer_absent.
Qed.

End SerializerRegistryFacts.

(** ** Dispatch *)

Section SerializerFactoryFacts.
Context `{CxxRuntime}.
Import Descriptor SerializerFactory.

Lemma GetDemangled_eq (T : CppType) :
  GetDemangled T = GetDemangledTypeName T.
Proof. done. Qed.

Lemma GetDescriptor_GRLRPC_REGISTER_TYPE
    (rr : ReflectionRegistry.t) (token : string)
    (va_args : MessageDescriptor → MessageDescriptor) :
  ReflectionRegistry.GetDescriptor token
    (ReflectionRegistry.GRLRPC_REGISTER_TYPE token va_args rr) =
  Some (va_args {| message_name := token; fields := [] |}).
Proof.
  unfold ReflectionRegistry.GetDescriptor,
    ReflectionRegistry.GRLRPC_REGISTER_TYPE, ReflectionRegistry.RegisterType.
  simpl. by rewrite lookup_insert_eq.
Qed.

(** C1. When the registry hands out a specialised serializer for
    [(T, f)], [Serialize] returns what that serializer returns, flag and
    output alike; the only steps taken are the probe for it and its
    invocation, so nothing of the generic tier is touched, and the outcome
    is the same whatever the reflection registry and the generic
    serializers hold. *)
Theorem specialized_serializer_takes_precedence
    (sr : SerializerRegistry.t) (rr : ReflectionRegistry.t)
    (T : CppType) (f : string) (ts : ITypeSerializer.t)
    (v : Obj) (output : string) :
  SerializerRegistry.GetTypeSerializer T f sr = Some ts →
  result (Serialize T v f output sr rr) =
    ITypeSerializer.Serialize ts v output ∧
  trace (Serialize T v f output sr rr) =
    [FindTypeSerializer (SerializerRegistry.MakeTypeSerializerKey T f);
     InvokeTypeSerialize] ∧
  (∀ e, e ∈ trace (Serialize T v f output sr rr) → generic_tier e = false) ∧
  (∀ sr' rr', SerializerRegistry.GetTypeSerializer T f sr' = Some ts →
     Serialize T v f output sr' rr' = Serialize T v f output sr rr).
Proof.
  intros Hts.
  assert (Hrun : ∀ sr' rr',
    SerializerRegistry.GetTypeSerializer T f sr' = Some ts →
    Serialize T v f output sr' rr' =
      (ITypeSerializer.Serialize ts v output,
       [FindTypeSerializer (SerializerRegistry.MakeTypeSerializerKey T f);
        InvokeTypeSerialize])).
  { intros sr' rr' Hts'. unfold Serialize, bind, observe.
    by rewrite Hts'. }
  rewrite (Hrun sr rr Hts). unfold result, trace. simpl.
  split; [done|]. split; [done|]. split.
  - intros e Hin. apply elem_of_cons in Hin as [->|Hin]; [done|].
    apply list_elem_of_singleton in Hin as ->. done.
  - intros sr' rr' Hts'. by apply Hrun.
Qed.

(** C2, as the code has it.  With no specialised serializer to be had for
    [(T, f)], a generic serializer under [f] and a descriptor under the
    demangled name of [T], [Serialize] takes the generic path and returns
    what the generic serializer returns on the object and that
    descriptor. *)
Theorem generic_fallback_delegates
    (sr : SerializerRegistry.t) (rr : ReflectionRegistry.t)
    (T : CppType) (f : string) (gs : ISerializer.t)
    (desc : MessageDescriptor) (v : Obj) (output : string) :
  SerializerRegistry.GetTypeSerializer T f sr = None →
  SerializerRegistry.GetSerializer f sr = Some gs →
  ReflectionRegistry.GetDescriptor (GetDemangled T) rr = Some desc →
  result (Serialize T v f output sr rr) =
    ISerializer.Serialize gs v desc output ∧
  trace (Serialize T v f output sr rr) =
    [FindTypeSerializer (SerializerRegistry.MakeTypeSerializerKey T f);
     FindSerializer f;
     FindDescriptor (GetDemangled T);
     InvokeGenericSerialize].
Proof.
  intros Hts Hgs Hdesc. unfold Serialize, bind, observe, result, trace.
  by rewrite Hts, Hgs, Hdesc.
Qed.

(** What the macro contributes to the fallback: a type whose demangled
    name is the token handed to [GRLRPC_REGISTER_TYPE] is served. *)
Lemma macro_registered_fallback
    (sr : SerializerRegistry.t) (rr : ReflectionRegistry.t)
    (T : CppType) (f : string) (gs : ISerializer.t)
    (va_args : MessageDescriptor → MessageDescriptor)
    (v : Obj) (output : string) :
  SerializerRegistry.GetTypeSerializer T f sr = None →
  SerializerRegistry.GetSerializer f sr = Some gs →
  result (Serialize T v f output sr
            (ReflectionRegistry.GRLRPC_REGISTER_TYPE (GetDemangled T)
               va_args rr)) =
    ISerializer.Serialize gs v
      (va_args {| message_name := GetDemangled T; fields := [] |}) output.
Proof.
  intros Hts Hgs. unfold Serialize, bind, observe, result.
  by rewrite Hts, Hgs, GetDescriptor_GRLRPC_REGISTER_TYPE.
Qed.

(** C3. With no specialised serializer to be had for [(T, f)], and the
    descriptor under the demangled name of [T] or the generic serializer
    under [f] missing, [Serialize] and [Deserialize] both return [false],
    leave the output string and the object as they were, and invoke no
    serializer. *)
Theorem missing_link_fails_closed
    (sr : SerializerRegistry.t) (rr : ReflectionRegistry.t)
    (T : CppType) (f : string) (v : Obj) (s output : string) :
  SerializerRegistry.GetTypeSerializer T f sr = None →
  ReflectionRegistry.GetDescriptor (GetDemangled T) rr = None ∨
    SerializerRegistry.GetSerializer f sr = None →
  result (Serialize T v f output sr rr) = (false, output) ∧
  result (Deserialize T s v f sr rr) = (false, v) ∧
  (∀ e, e ∈ trace (Serialize T v f output sr rr) →
        invokes_serializer e = false) ∧
  (∀ e, e ∈ trace (Deserialize T s v f sr rr) →
        invokes_serializer e = false).
Proof.
  intros Hts Hmissing.
  unfold Serialize, Deserialize, bind, observe, ret, result, trace.
  rewrite Hts.
  destruct (SerializerRegistry.GetSerializer f sr) as [gs|] eqn:Hgs.
  - destruct Hmissing as [Hdesc|?]; [|done]. rewrite Hdesc. simpl.
    repeat split; intros e Hin;
      repeat (apply elem_of_cons in Hin as [->|Hin]; [done|]);
      by apply elem_of_nil in Hin.
  - simpl.
    repeat split; intros e Hin;
      repeat (apply elem_of_cons in Hin as [->|Hin]; [done|]);
      by apply elem_of_nil in Hin.
Qed.

(** C4, as the code has it.  The framework fixes no encoding and checks
    none; what it adds is that [Serialize] and [Deserialize] resolve
    [(T, f)] to the same serializer.  So when that serializer, specialised
    or generic, encodes [v] and decodes the encoding to [decoded], the
    factory's round trip succeeds with [decoded]: it reproduces [v]
    whenever the serializer does. *)
Theorem dispatch_preserves_round_trip
    (sr : SerializerRegistry.t) (rr : ReflectionRegistry.t)
    (T : CppType) (f : string) (v obj decoded : Obj)
    (output encoded : string) :
  (∃ ts, SerializerRegistry.GetTypeSerializer T f sr = Some ts ∧
         ITypeSerializer.Serialize ts v output = (true, encoded) ∧
         ITypeSerializer.Deserialize ts encoded obj = (true, decoded)) ∨
  (∃ gs desc,
         SerializerRegistry.GetTypeSerializer T f sr = None ∧
         SerializerRegistry.GetSerializer f sr = Some gs ∧
         ReflectionRegistry.GetDescriptor (GetDemangled T) rr = Some desc ∧
         ISerializer.Serialize gs v desc output = (true, encoded) ∧
         ISerializer.Deserialize gs encoded obj desc = (true, decoded)) →
  result (Serialize T v f output sr rr) = (true, encoded) ∧
  result (Deserialize T encoded obj f sr rr) = (true, decoded).
Proof.
  unfold Serialize, Deserialize, bind, observe, result.
  intros [(ts & Hts & Hser & Hde)|(gs & desc & Hts & Hgs & Hdesc & Hser & Hde)].
  - by rewrite Hts, Hser, Hde.
  - by rewrite Hts, Hgs, Hdesc, Hser, Hde.
Qed.

End SerializerFactoryFacts.

(** ** Clearing *)

Section ClearFacts.
Context `{CxxRuntime}.

(** C9. After [Clear], every presence check of the cleared registry
    answers "absent", whatever had been registered before. *)
Theorem clear_forgets_everything :
  (∀ (r : TypeRegistry.t) (T : CppType) (n : string),
     TypeRegistry.IsTypeRegistered T (TypeRegistry.Clear r) = false ∧
     TypeRegistry.HasTypeName n (TypeRegistry.Clear r) = false ∧
     TypeRegistry.GetRegisteredTypeCount (TypeRegistry.Clear r) = 0 ∧
     TypeRegistry.GetTypeName T (TypeRegistry.Clear r) = "" ∧
     TypeRegistry.GetAllTypeNames (TypeRegistry.Clear r) = []) ∧
  (∀ (r : ReflectionRegistry.t) (n : string),
     ReflectionRegistry.HasType n (ReflectionRegistry.Clear r) = false ∧
     ReflectionRegistry.GetDescriptor n (ReflectionRegistry.Clear r) = None ∧
     ReflectionRegistry.GetRegisteredTypes (ReflectionRegistry.Clear r) = []) ∧
  (∀ (r : SerializerRegistry.t) (T : CppType) (f : string),
     SerializerRegistry.GetSerializer f (SerializerRegistry.Clear r) = None ∧
     SerializerRegistry.HasTypeSerializer T f (SerializerRegistry.Clear r)
       = false ∧
     SerializerRegistry.GetTypeSerializer T f (SerializerRegistry.Clear r)
       = None).
Proof.
  split; [|split].
  - intros r T n.
    unfold TypeRegistry.IsTypeRegistered, TypeRegistry.HasTypeName,
      TypeRegistry.GetRegisteredTypeCount, TypeRegistry.GetTypeName,
      TypeRegistry.GetAllTypeNames, TypeRegistry.Clear. simpl.
    rewrite !lookup_empty, map_size_empty, map_to_list_empty. done.
  - intros r n.
    unfold ReflectionRegistry.HasType, ReflectionRegistry.GetDescriptor,
      ReflectionRegistry.GetRegisteredTypes, ReflectionRegistry.Clear. simpl.
    rewrite !lookup_empty, map_to_list_empty. done.
  - intros r T f.
    unfold SerializerRegistry.GetSerializer,
      SerializerRegistry.HasTypeSerializer,
      SerializerRegistry.GetTypeSerializer, SerializerRegistry.Clear. simpl.
    rewrite !lookup_empty. done.
Qed.

End ClearFacts.

(** ** Field type names *)

Section FieldTypeNames.

(** X1. Every field type is recovered from its name. *)
Theorem StringToFieldType_FieldTypeToString (type : FieldType) :
  StringToFieldType (FieldTypeToString type) = type.
Proof. by destruct type. Qed.

Lemma StringToFieldType_known (str : string) :
  str ∈ field_type_names →
  FieldTypeToString (StringToFieldType str) = str.
Proof.
  unfold field_type_names. intros Hin.
  repeat (apply elem_of_cons in Hin as [->|Hin]; [done|]).
  by apply elem_of_nil in Hin.
Qed.

Lemma StringToFieldType_unknown (str : string) :
  str ∉ field_type_names → StringToFieldType str = STRING.
Proof.
  unfold field_type_names. intros Hout. unfold StringToFieldType.
  repeat (destruct (decide _) as [->|_];
          [exfalso; apply Hout;
           repeat first [apply list_elem_of_here | apply list_elem_of_further]|]).
  done.
Qed.

(** X2. A string is recovered from the field type it names exactly when it
    is one of the ten names, spelled in capitals; every other string,
    ["UNKNOWN"] and the empty string included, is read as [STRING]. *)
Theorem FieldTypeToString_StringToFieldType (str : string) :
  (str ∈ field_type_names ∧
   FieldTypeToString (StringToFieldType str) = str) ∨
  ((str ∉ field_type_names) ∧ StringToFieldType str = STRING ∧
   FieldTypeToString (StringToFieldType str) ≠ str).
Proof.
  destruct (decide (str ∈ field_type_names)) as [Hin|Hout].
  - left. split; [done|]. by apply StringToFieldType_known.
  - right. split; [done|].
    pose proof (StringToFieldType_unknown str Hout) as Hdefault.
    split; [done|]. rewrite Hdefault. simpl. intros <-.
    apply Hout. unfold field_type_names.
    repeat first [apply list_elem_of_here | apply list_elem_of_further].
Qed.

End FieldTypeNames.

(** ** Message descriptors: adding and finding *)

Section DescriptorLookupFacts.
Context `{CxxRuntime}.
Import Descriptor.

Lemma first_field_app test (before after : list FieldDescriptor) :
  first_field test (before ++ after) =
  match first_field test before with
  | Some found => Some found
  | None => first_field test after
  end.
Proof.
  induction before as [|field before IH]; simpl; [done|].
  by destruct (test field).
Qed.

(** X3. Adding a field never changes what a lookup already finds: a field
    added under a name or a number that an earlier field carries is out of
    reach of [GetField], respectively [GetFieldByNumber]; the new field is
    found only under a name, or number, that was free. *)
Theorem AddField_lookup (field : FieldDescriptor) (d : MessageDescriptor)
    (n : string) (k : Z) :
  GetField n (AddField field d) =
    match GetField n d with
    | Some found => Some found
    | None => if bool_decide (name field = n) then Some field else None
    end ∧
  GetFieldByNumber k (AddField field d) =
    match GetFieldByNumber k d with
    | Some found => Some found
    | None => if bool_decide (field_number field = k) then Some field else None
    end.
Proof.
  unfold GetField, GetFieldByNumber, AddField. simpl.
  by rewrite !first_field_app.
Qed.

Lemma first_field_unique_key {K} `{EqDecision K} (key : FieldDescriptor → K)
    (fs : list FieldDescriptor) (field : FieldDescriptor) :
  NoDup (key <$> fs) → field ∈ fs →
  first_field (λ f, bool_decide (key f = key field)) fs = Some field.
Proof.
  induction fs as [|head rest IH]; intros Hnodup Hin.
  - by apply elem_of_nil in Hin.
  - rewrite fmap_cons in Hnodup. apply NoDup_cons in Hnodup as [Hhead Hrest].
    simpl. apply elem_of_cons in Hin as [->|Hin].
    + by rewrite bool_decide_eq_true_2.
    + rewrite bool_decide_eq_false_2; [by apply IH|].
      intros Heq. apply Hhead. rewrite Heq.
      by apply list_elem_of_fmap_2.
Qed.

(** X4. In a descriptor whose field names are pairwise distinct and whose
    field numbers are pairwise distinct, every field is found under its own
    name and under its own number. *)
Theorem unique_fields_are_found (d : MessageDescriptor)
    (field : FieldDescriptor) :
  NoDup (name <$> fields d) →
  NoDup (field_number <$> fields d) →
  field ∈ fields d →
  GetField (name field) d = Some field ∧
  GetFieldByNumber (field_number field) d = Some field.
Proof.
  intros Hnames Hnumbers Hin. unfold GetField, GetFieldByNumber.
  split; by apply first_field_unique_key.
Qed.

End DescriptorLookupFacts.

(** ** Type name registry: the two maps together *)

Section TypeRegistryLinkFacts.
Context `{CxxRuntime}.
Import TypeRegistry.

(** Whatever the history, each map's entries lead into the other map. *)
Lemma run_linked (calls : list Call) :
  (∀ type_id n, type_names_ (run calls Instance) !! type_id = Some n →
                is_Some (name_to_type_id_ (run calls Instance) !! n)) ∧
  (∀ n type_id, name_to_type_id_ (run calls Instance) !! n = Some type_id →
                is_Some (type_names_ (run calls Instance) !! type_id)).
Proof.
  induction calls as [|c calls [IHfwd IHrev]] using rev_ind.
  - split; intros ? ?; simpl; by rewrite lookup_empty.
  - rewrite run_snoc. destruct c as [T custom|]; simpl.
    + split.
      * intros type_id n Hentry. apply lookup_insert_is_Some.
        apply lookup_insert_Some in Hentry as [[_ <-]|[_ Hold]]; [by left|].
        destruct (decide (registered_name T custom = n)); [by left|].
        right. split; [done|]. by eapply IHfwd.
      * intros n type_id Hentry. apply lookup_insert_is_Some.
        apply lookup_insert_Some in Hentry as [[_ <-]|[_ Hold]]; [by left|].
        destruct (decide (typeid_name T = type_id)); [by left|].
        right. split; [done|]. by eapply IHrev.
    + split; intros ? ?; by rewrite lookup_empty.
Qed.

(** X5. After any sequence of registrations and clears, the name that
    [GetTypeName] reports for a registered type is a name that
    [HasTypeName] knows. *)
Theorem registered_name_is_known (calls : list Call) (T : CppType) :
  IsTypeRegistered T (run calls Instance) = true →
  HasTypeName (GetTypeName T (run calls Instance)) (run calls Instance) = true.
Proof.
  unfold IsTypeRegistered, GetTypeName, HasTypeName.
  destruct (type_names_ (run calls Instance) !! typeid_name T)
    as [n|] eqn:Hentry; [intros _|done].
  destruct (proj1 (run_linked calls) _ _ Hentry) as [type_id Hrev].
  by rewrite Hrev.
Qed.

(** X6. After any sequence of registrations and clears, every name in the
    reverse map, stale ones included, leads to a type identity that is
    still registered. *)
Theorem known_name_leads_to_registered_type (calls : list Call)
    (n type_id : string) :
  name_to_type_id_ (run calls Instance) !! n = Some type_id →
  is_Some (type_names_ (run calls Instance) !! type_id) ∧
  HasTypeName n (run calls Instance) = true.
Proof.
  intros Hentry. split.
  - by eapply (proj2 (run_linked calls)).
  - unfold HasTypeName. by rewrite Hentry.
Qed.

Lemma run_dom (calls : list Call) :
  dom (type_names_ (run calls Instance)) =@{gset string}
  list_to_set (remove_dups (live_type_ids calls)).
Proof.
  apply set_eq. intros type_id.
  rewrite elem_of_list_to_set, elem_of_remove_dups.
  destruct (decide (type_id ∈ live_type_ids calls)) as [Hin|Hout].
  - split; [done|]. intros _. apply dec_stable. intros Hdom.
    apply not_elem_of_dom in Hdom. by apply run_type_names in Hdom.
  - split; [|done]. intros Hdom. exfalso.
    apply run_type_names in Hout. by apply not_elem_of_dom in Hout.
Qed.

(** X7. The registered-type count is the number of distinct type
    identities registered since the last clear, however often each was
    registered and under however many names; [GetAllTypeNames] returns that
    many names. *)
Theorem count_is_distinct_live_types (calls : list Call) :
  GetRegisteredTypeCount (run calls Instance) =
    length (remove_dups (live_type_ids calls)) ∧
  length (GetAllTypeNames (run calls Instance)) =
    GetRegisteredTypeCount (run calls Instance).
Proof.
  unfold GetRegisteredTypeCount, GetAllTypeNames. split.
  - rewrite <- (size_dom (D := gset string)), run_dom.
    apply size_list_to_set, NoDup_remove_dups.
  - by rewrite length_fmap, length_map_to_list.
Qed.

(** X8. A registration adds one to the count when the type was not
    registered and leaves the count alone when it was; it does not touch
    the name or the presence of a type with another identity, nor the
    presence of any other name. *)
Theorem RegisterType_frame (r : t) (T T' : CppType) (n m : string) :
  GetRegisteredTypeCount (RegisterType T n r) =
    (if IsTypeRegistered T r then GetRegisteredTypeCount r
     else S (GetRegisteredTypeCount r)) ∧
  (typeid_name T' ≠ typeid_name T →
     GetTypeName T' (RegisterType T n r) = GetTypeName T' r ∧
     IsTypeRegistered T' (RegisterType T n r) = IsTypeRegistered T' r) ∧
  (m ≠ registered_name T n →
     HasTypeName m (RegisterType T n r) = HasTypeName m r).
Proof.
  unfold GetRegisteredTypeCount, IsTypeRegistered, GetTypeName, HasTypeName,
    RegisterType. simpl. split; [|split].
  - rewrite map_size_insert. by destruct (type_names_ r !! typeid_name T).
  - intros Hother. by rewrite lookup_insert_ne.
  - intros Hother. by rewrite lookup_insert_ne.
Qed.

Lemma elem_of_GetAllTypeNames (r : t) (n : string) :
  n ∈ GetAllTypeNames r ↔ ∃ type_id, type_names_ r !! type_id = Some n.
Proof.
  unfold GetAllTypeNames. rewrite list_elem_of_fmap. split.
  - intros ([type_id n'] & -> & Hin). exists type_id.
    by apply elem_of_map_to_list.
  - intros [type_id Hentry]. exists (type_id, n). split; [done|].
    by apply elem_of_map_to_list.
Qed.

(** X9. [GetAllTypeNames] lists current names only: once a type registered
    under a non-empty name [n1] is registered again under another name, [n1]
    is no longer listed (unless another type carries it), although
    [HasTypeName] still answers [true] for it. *)
Theorem stale_name_is_not_listed (r : t) (T : CppType) (n1 n2 : string) :
  n1 ≠ "" →
  registered_name T n2 ≠ n1 →
  n1 ∉ GetAllTypeNames r →
  (n1 ∉ GetAllTypeNames (RegisterType T n2 (RegisterType T n1 r))) ∧
  (registered_name T n2 ∈
     GetAllTypeNames (RegisterType T n2 (RegisterType T n1 r))) ∧
  HasTypeName n1 (RegisterType T n2 (RegisterType T n1 r)) = true.
Proof.
  intros Hn1 Hnew Hfresh. split; [|split].
  - rewrite elem_of_GetAllTypeNames. intros [type_id Hentry].
    unfold RegisterType in Hentry. simpl in Hentry.
    rewrite insert_insert_eq in Hentry.
    apply lookup_insert_Some in Hentry as [[_ Heq]|[_ Hold]]; [done|].
    apply Hfresh, elem_of_GetAllTypeNames. by exists type_id.
  - apply elem_of_GetAllTypeNames. exists (typeid_name T).
    unfold RegisterType. simpl. by rewrite lookup_insert_eq.
  - apply HasTypeName_RegisterType_mono. unfold HasTypeName.
    by rewrite reverse_entry_custom.
Qed.

(** X10. Registrations of two types with different identities under
    different names can run in either order: the registry ends up the
    same. *)
Theorem registration_order_is_irrelevant
    (r : t) (T1 T2 : CppType) (n1 n2 : string) :
  typeid_name T1 ≠ typeid_name T2 →
  registered_name T1 n1 ≠ registered_name T2 n2 →
  RegisterType T1 n1 (RegisterType T2 n2 r) =
  RegisterType T2 n2 (RegisterType T1 n1 r).
Proof.
  intros Hids Hnames. unfold RegisterType. simpl. f_equal.
  - by apply insert_insert_ne.
  - by apply insert_insert_ne.
Qed.

(** X11. Registering a type whose name and reverse entry are already what
    the call would write changes nothing; in particular a registrar that
    runs a second time, with only registrations of other types under other
    names in between, leaves the registry as it found it. *)
Theorem repeated_registration_is_idle
    (r : t) (T : CppType) (n : string) (calls : list Call) :
  Forall (λ c, match c with
               | CallRegisterType T' n' =>
                   typeid_name T' ≠ typeid_name T ∧
                   registered_name T' n' ≠ registered_name T n
               | CallClear => False
               end) calls →
  RegisterType T n (run calls (RegisterType T n r)) =
  run calls (RegisterType T n r).
Proof.
  intros Hcalls.
  assert (Hkept :
    type_names_ (run calls (RegisterType T n r)) !! typeid_name T =
      Some (registered_name T n) ∧
    name_to_type_id_ (run calls (RegisterType T n r)) !! registered_name T n =
      Some (typeid_name T)).
  { revert Hcalls. induction calls as [|c calls IH] using rev_ind;
      intros Hcalls.
    - simpl. unfold RegisterType. simpl. by rewrite !lookup_insert_eq.
    - apply Forall_app in Hcalls as [Hcalls Hc].
      rewrite Forall_singleton in Hc.
      rewrite run_snoc. destruct c as [T' n'|]; [|done].
      destruct Hc as [Hid Hname], (IH Hcalls) as [IHfwd IHrev].
      unfold step, RegisterType at 1 3. simpl.
      by rewrite !lookup_insert_ne. }
  destruct Hkept as [Hfwd Hrev].
  destruct (run calls (RegisterType T n r)) as [names ids] eqn:Hstate.
  simpl in Hfwd, Hrev. unfold RegisterType. simpl.
  by rewrite !insert_id.
Qed.

End TypeRegistryLinkFacts.

(** ** Reflection registry: listing, order, macros *)

Section ReflectionRegistryFacts.
Context `{CxxRuntime}.
Import Descriptor ReflectionRegistry.

(** X12. [GetRegisteredTypes] lists each registered name once, and lists
    exactly the names for which [HasType] answers [true], which are exactly
    those for which [GetDescriptor] returns a descriptor. *)
Theorem registered_types_listing (r : t) (n : string) :
  NoDup (GetRegisteredTypes r) ∧
  (n ∈ GetRegisteredTypes r ↔ HasType n r = true) ∧
  (HasType n r = true ↔ is_Some (GetDescriptor n r)).
Proof.
  unfold GetRegisteredTypes, HasType, GetDescriptor. split; [|split].
  - apply NoDup_fst_map_to_list.
  - rewrite list_elem_of_fmap. split.
    + intros ([n' d] & -> & Hin). apply elem_of_map_to_list in Hin.
      simpl. by rewrite Hin.
    + destruct (descriptors_ r !! n) as [d|] eqn:Hentry; [intros _|done].
      exists (n, d). split; [done|]. by apply elem_of_map_to_list.
  - destruct (descriptors_ r !! n) as [d|].
    + split; [intros _; by exists d|done].
    + split; [done|]. by intros [? ?].
Qed.

(** X13. Descriptors registered under different names can be registered in
    either order, and each remains retrievable; under one name the later
    registration replaces the earlier one altogether. *)
Theorem descriptor_registration_order
    (r : t) (n1 n2 : string) (d1 d2 d3 : MessageDescriptor) :
  n1 ≠ n2 →
  RegisterType n1 d1 (RegisterType n2 d2 r) =
    RegisterType n2 d2 (RegisterType n1 d1 r) ∧
  GetDescriptor n1 (RegisterType n2 d2 (RegisterType n1 d1 r)) = Some d1 ∧
  GetDescriptor n2 (RegisterType n2 d2 (RegisterType n1 d1 r)) = Some d2 ∧
  RegisterType n1 d3 (RegisterType n1 d1 r) = RegisterType n1 d3 r.
Proof.
  intros Hne. unfold RegisterType, GetDescriptor. simpl.
  split; [|split; [|split]].
  - f_equal. by apply insert_insert_ne.
  - by rewrite lookup_insert_ne, lookup_insert_eq.
  - by rewrite lookup_insert_eq.
  - f_equal. apply insert_insert_eq.
Qed.

(** X14. [GRLRPC_REGISTER_TYPE] whose statements add the fields [fs]
    registers, under the macro token, the descriptor named by the token
    with exactly the fields [fs] in the order written, keeps the descriptors
    registered under other names, and does what [RegisterReflection] does
    once called. *)
Theorem GRLRPC_REGISTER_TYPE_registers
    (r : t) (token other : string) (fs : list FieldDescriptor) :
  other ≠ token →
  GetDescriptor token (GRLRPC_REGISTER_TYPE token (AddFields fs) r) =
    Some {| message_name := token; fields := fs |} ∧
  GetDescriptor other (GRLRPC_REGISTER_TYPE token (AddFields fs) r) =
    GetDescriptor other r ∧
  RegisterReflection token (AddFields fs) r =
    GRLRPC_REGISTER_TYPE token (AddFields fs) r.
Proof.
  intros Hother. split; [|split; [|done]].
  - rewrite GetDescriptor_GRLRPC_REGISTER_TYPE. f_equal.
    pose proof (AddFields_fields fs {| message_name := token; fields := [] |})
      as Hfields.
    pose proof (AddFields_message_name fs
                  {| message_name := token; fields := [] |}) as Hname.
    destruct (AddFields fs _) as [mn fl]. simpl in *. by subst.
  - unfold GetDescriptor, GRLRPC_REGISTER_TYPE, RegisterType. simpl.
    by rewrite lookup_insert_ne.
Qed.

End ReflectionRegistryFacts.

(** ** Serializer registry: keys, null entries, replacement *)

Section SerializerRegistryKeyFacts.
Context `{CxxRuntime}.
Import TypeSerializerWrapper SerializerRegistry.

Lemma append_String (c : ascii) (a x : string) :
  String c a +:+ x = String c (a +:+ x).
Proof. done. Qed.

Lemma append_empty (x : string) : "" +:+ x = x.
Proof. done. Qed.

Lemma colon_separates (a b x y : string) :
  occurs ":"%char a = false → occurs ":"%char b = false →
  a +:+ ":" +:+ x = b +:+ ":" +:+ y → a = b ∧ x = y.
Proof.
  revert b. induction a as [|c a IH]; intros [|c' b] Ha Hb Heq;
    simpl in Ha, Hb; rewrite ?append_String, ?append_empty in Heq.
  - by injection Heq as ->.
  - injection Heq as <- _. by rewrite decide_True in Hb.
  - injection Heq as -> _. by rewrite decide_True in Ha.
  - injection Heq as -> Heq.
    destruct (decide (c' = ":"%char)); [done|].
    destruct (IH b Ha Hb Heq) as [-> ->]. done.
Qed.

Lemma same_prefix_separates (a x y : string) :
  a +:+ x = a +:+ y → x = y.
Proof.
  induction a as [|c a IH]; rewrite ?append_String, ?append_empty; [done|].
  intros Heq. injection Heq as Heq. by apply IH.
Qed.

(** X15. When the [typeid] names of two types contain no colon, their
    keys in the specialised map coincide only if the [typeid] names are the
    same and the format names are the same. *)
Theorem type_serializer_keys_are_separate (T T' : CppType) (f f' : string) :
  occurs ":"%char (typeid_name T) = false →
  occurs ":"%char (typeid_name T') = false →
  (MakeTypeSerializerKey T f = MakeTypeSerializerKey T' f' ↔
   typeid_name T = typeid_name T' ∧ f = f').
Proof.
  intros HT HT'. unfold MakeTypeSerializerKey. split.
  - by apply colon_separates.
  - by intros [-> ->].
Qed.

Lemma GetTypeSerializer_other_key (r : t) (T T' : CppType) (f f' : string)
    (s : option ITypeSerializer.t) :
  MakeTypeSerializerKey T f ≠ MakeTypeSerializerKey T' f' →
  GetTypeSerializer T' f' (RegisterTypeSerializer T f s r) =
    GetTypeSerializer T' f' r ∧
  HasTypeSerializer T' f' (RegisterTypeSerializer T f s r) =
    HasTypeSerializer T' f' r.
Proof.
  intros Hkey. unfold GetTypeSerializer, HasTypeSerializer,
    RegisterTypeSerializer. simpl. by rewrite lookup_insert_ne.
Qed.

(** X16. One type may have one specialised serializer per format:
    registering under a format leaves the serializers of the same type
    under every other format as they were.  The generic and the specialised
    map do not interfere either. *)
Theorem formats_are_independent (r : t) (T : CppType) (f f' g : string)
    (s : option ITypeSerializer.t) (gs : option ISerializer.t) :
  f ≠ f' →
  GetTypeSerializer T f' (RegisterTypeSerializer T f s r) =
    GetTypeSerializer T f' r ∧
  HasTypeSerializer T f' (RegisterTypeSerializer T f s r) =
    HasTypeSerializer T f' r ∧
  GetSerializer g (RegisterTypeSerializer T f s r) = GetSerializer g r ∧
  GetTypeSerializer T f (RegisterSerializer g gs r) = GetTypeSerializer T f r ∧
  HasTypeSerializer T f (RegisterSerializer g gs r) = HasTypeSerializer T f r.
Proof.
  intros Hne.
  destruct (GetTypeSerializer_other_key r T T f f' s) as [Hget Hhas].
  { unfold MakeTypeSerializerKey. intros Heq.
    apply same_prefix_separates in Heq. by injection Heq. }
  by rewrite Hget, Hhas.
Qed.

(** X17. A serializer that [GetTypeSerializer] returns is one that
    [HasTypeSerializer] reports, but not the other way round: after a null
    pointer is registered as the specialised serializer of [(T, f)],
    [HasTypeSerializer] answers [true] and [GetTypeSerializer] the null
    pointer.  A null pointer registered as generic serializer reads back as
    "no serializer". *)
Theorem presence_is_not_availability
    (r : t) (T : CppType) (f : string) :
  (∀ s, GetTypeSerializer T f r = Some s → HasTypeSerializer T f r = true) ∧
  HasTypeSerializer T f (RegisterTypeSerializer T f None r) = true ∧
  GetTypeSerializer T f (RegisterTypeSerializer T f None r) = None ∧
  GetSerializer f (RegisterSerializer f None r) = None.
Proof.
  split; [|split; [|split]].
  - intros s. unfold GetTypeSerializer, HasTypeSerializer.
    by destruct (type_serializers_ r !! MakeTypeSerializerKey T f).
  - unfold HasTypeSerializer, RegisterTypeSerializer. simpl.
    by rewrite lookup_insert_eq.
  - apply GetTypeSerializer_RegisterTypeSerializer.
  - apply GetSerializer_RegisterSerializer.
Qed.

(** X18. When two different types have the same [typeid] name,
    registering a serializer for the second under a format takes the place
    of the first type's entry: the first type gets the null pointer from
    then on, although [HasTypeSerializer] still answers [true] for it. *)
Theorem same_key_registration_replaces
    (r : t) (T T' : CppType) (f : string)
    (s s' : option ITypeSerializer.t) :
  typeid_name T = typeid_name T' → T ≠ T' →
  let r2 := RegisterTypeSerializer T' f s' (RegisterTypeSerializer T f s r) in
  GetTypeSerializer T f r2 = None ∧
  HasTypeSerializer T f r2 = true ∧
  GetTypeSerializer T' f r2 = s'.
Proof.
  intros Hname Hother r2.
  assert (Hkey : MakeTypeSerializerKey T f = MakeTypeSerializerKey T' f).
  { unfold MakeTypeSerializerKey. by rewrite Hname. }
  split; [|split].
  - unfold r2, GetTypeSerializer, RegisterTypeSerializer at 1. simpl.
    rewrite Hkey, lookup_insert_eq. unfold dynamic_cast, make. simpl.
    by rewrite decide_False.
  - unfold r2, HasTypeSerializer, RegisterTypeSerializer at 1. simpl.
    by rewrite Hkey, lookup_insert_eq.
  - apply GetTypeSerializer_RegisterTypeSerializer.
Qed.

End SerializerRegistryKeyFacts.

(** ** Dispatch: decoding, null entries, lookup order, display names *)

Section SerializerFactoryMoreFacts.
Context `{CxxRuntime}.
Import Descriptor SerializerFactory.

Lemma Serialize_generic_path
    (sr : SerializerRegistry.t) (rr : ReflectionRegistry.t)
    (T : CppType) (f : string) (gs : ISerializer.t)
    (desc : MessageDescriptor) (v : Obj) (output : string) :
  SerializerRegistry.GetTypeSerializer T f sr = None →
  SerializerRegistry.GetSerializer f sr = Some gs →
  ReflectionRegistry.GetDescriptor (GetDemangled T) rr = Some desc →
  result (Serialize T v f output sr rr) =
    ISerializer.Serialize gs v desc output.
Proof.
  intros Hts Hgs Hdesc. unfold Serialize, bind, observe, result.
  by rewrite Hts, Hgs, Hdesc.
Qed.

Lemma Deserialize_generic_path
    (sr : SerializerRegistry.t) (rr : ReflectionRegistry.t)
    (T : CppType) (f : string) (gs : ISerializer.t)
    (desc : MessageDescriptor) (input : string) (obj : Obj) :
  SerializerRegistry.GetTypeSerializer T f sr = None →
  SerializerRegistry.GetSerializer f sr = Some gs →
  ReflectionRegistry.GetDescriptor (GetDemangled T) rr = Some desc →
  result (Deserialize T input obj f sr rr) =
    ISerializer.Deserialize gs input obj desc.
Proof.
  intros Hts Hgs Hdesc. unfold Deserialize, bind, observe, result.
  by rewrite Hts, Hgs, Hdesc.
Qed.

Lemma no_descriptor_no_result
    (sr : SerializerRegistry.t) (rr : ReflectionRegistry.t)
    (T : CppType) (f : string) (v : Obj) (input output : string) :
  SerializerRegistry.GetTypeSerializer T f sr = None →
  ReflectionRegistry.GetDescriptor (GetDemangled T) rr = None →
  result (Serialize T v f output sr rr) = (false, output) ∧
  result (Deserialize T input v f sr rr) = (false, v).
Proof.
  intros Hts Hdesc. unfold Serialize, Deserialize, bind, observe, ret, result.
  rewrite Hts, Hdesc.
  by destruct (SerializerRegistry.GetSerializer f sr).
Qed.

(** X19. [Deserialize] gives a specialised serializer the same precedence
    as [Serialize] does: it returns what that serializer's [Deserialize]
    returns, flag and object alike, takes no step into the generic tier, and
    is indifferent to the reflection registry and the generic serializers. *)
Theorem specialized_deserializer_takes_precedence
    (sr : SerializerRegistry.t) (rr : ReflectionRegistry.t)
    (T : CppType) (f : string) (ts : ITypeSerializer.t)
    (input : string) (obj : Obj) :
  SerializerRegistry.GetTypeSerializer T f sr = Some ts →
  result (Deserialize T input obj f sr rr) =
    ITypeSerializer.Deserialize ts input obj ∧
  trace (Deserialize T input obj f sr rr) =
    [FindTypeSerializer (SerializerRegistry.MakeTypeSerializerKey T f);
     InvokeTypeDeserialize] ∧
  (∀ sr' rr', SerializerRegistry.GetTypeSerializer T f sr' = Some ts →
     Deserialize T input obj f sr' rr' = Deserialize T input obj f sr rr).
Proof.
  intros Hts.
  assert (Hrun : ∀ sr' rr',
    SerializerRegistry.GetTypeSerializer T f sr' = Some ts →
    Deserialize T input obj f sr' rr' =
      (ITypeSerializer.Deserialize ts input obj,
       [FindTypeSerializer (SerializerRegistry.MakeTypeSerializerKey T f);
        InvokeTypeDeserialize])).
  { intros sr' rr' Hts'. unfold Deserialize, bind, observe. by rewrite Hts'. }
  rewrite (Hrun sr rr Hts). unfold result, trace. simpl.
  split; [done|]. split; [done|].
  intros sr' rr' Hts'. by apply Hrun.
Qed.

(** X20. With no specialised serializer to be had for [(T, f)], a generic
    serializer under [f] and a descriptor under the demangled name of [T],
    [Deserialize] returns what the generic serializer's [Deserialize]
    returns on the input, the object and that descriptor. *)
Theorem generic_fallback_deserializes
    (sr : SerializerRegistry.t) (rr : ReflectionRegistry.t)
    (T : CppType) (f : string) (gs : ISerializer.t)
    (desc : MessageDescriptor) (input : string) (obj : Obj) :
  SerializerRegistry.GetTypeSerializer T f sr = None →
  SerializerRegistry.GetSerializer f sr = Some gs →
  ReflectionRegistry.GetDescriptor (GetDemangled T) rr = Some desc →
  result (Deserialize T input obj f sr rr) =
    ISerializer.Deserialize gs input obj desc ∧
  trace (Deserialize T input obj f sr rr) =
    [FindTypeSerializer (SerializerRegistry.MakeTypeSerializerKey T f);
     FindSerializer f;
     FindDescriptor (GetDemangled T);
     InvokeGenericDeserialize].
Proof.
  intros Hts Hgs Hdesc. unfold Deserialize, bind, observe, result, trace.
  by rewrite Hts, Hgs, Hdesc.
Qed.

(** X21. Registering a null pointer as the specialised serializer of
    [(T, f)] hands the pair back to the generic path, whatever was
    registered for it before: [Serialize] and [Deserialize] then return what
    the generic serializer under [f] returns with the descriptor under the
    demangled name of [T]. *)
Theorem null_specialized_serializer_falls_back
    (sr : SerializerRegistry.t) (rr : ReflectionRegistry.t)
    (T : CppType) (f : string) (gs : ISerializer.t)
    (desc : MessageDescriptor) (v : Obj) (input output : string) :
  SerializerRegistry.GetSerializer f sr = Some gs →
  ReflectionRegistry.GetDescriptor (GetDemangled T) rr = Some desc →
  let sr0 := SerializerRegistry.RegisterTypeSerializer T f None sr in
  SerializerRegistry.HasTypeSerializer T f sr0 = true ∧
  result (Serialize T v f output sr0 rr) =
    ISerializer.Serialize gs v desc output ∧
  result (Deserialize T input v f sr0 rr) =
    ISerializer.Deserialize gs input v desc.
Proof.
  intros Hgs Hdesc sr0.
  assert (Hnull : SerializerRegistry.GetTypeSerializer T f sr0 = None)
    by apply GetTypeSerializer_RegisterTypeSerializer.
  assert (Hgs0 : SerializerRegistry.GetSerializer f sr0 = Some gs) by done.
  split; [|split].
  - unfold sr0, SerializerRegistry.HasTypeSerializer,
      SerializerRegistry.RegisterTypeSerializer. simpl.
    by rewrite lookup_insert_eq.
  - by apply Serialize_generic_path.
  - by apply Deserialize_generic_path.
Qed.

(** X22. The generic serializer is looked up before the descriptor: when
    no specialised serializer is to be had and no generic serializer is
    registered under [f], [Serialize] and [Deserialize] give up without
    consulting the reflection registry. *)
Theorem descriptor_lookup_comes_last
    (sr : SerializerRegistry.t) (rr : ReflectionRegistry.t)
    (T : CppType) (f : string) (v : Obj) (input output : string) :
  SerializerRegistry.GetTypeSerializer T f sr = None →
  SerializerRegistry.GetSerializer f sr = None →
  trace (Serialize T v f output sr rr) =
    [FindTypeSerializer (SerializerRegistry.MakeTypeSerializerKey T f);
     FindSerializer f] ∧
  trace (Deserialize T input v f sr rr) =
    [FindTypeSerializer (SerializerRegistry.MakeTypeSerializerKey T f);
     FindSerializer f].
Proof.
  intros Hts Hgs. unfold Serialize, Deserialize, bind, observe, ret, trace.
  by rewrite Hts, Hgs.
Qed.

(** X23. The name the type registry gives a type registered without a
    custom name is the key under which the factory looks for the type's
    descriptor; a descriptor registered under that name is therefore the one
    the generic path uses. *)
Theorem default_name_is_the_factory_key
    (tr : TypeRegistry.t)
    (sr : SerializerRegistry.t) (rr : ReflectionRegistry.t)
    (T : CppType) (f : string) (gs : ISerializer.t)
    (desc : MessageDescriptor) (v : Obj) (output : string) :
  SerializerRegistry.GetTypeSerializer T f sr = None →
  SerializerRegistry.GetSerializer f sr = Some gs →
  let display_name := TypeRegistry.GetTypeName T (REGISTER_TYPE T tr) in
  display_name = GetDemangled T ∧
  result (Serialize T v f output sr
            (ReflectionRegistry.RegisterType display_name desc rr)) =
    ISerializer.Serialize gs v desc output.
Proof.
  intros Hts Hgs display_name.
  assert (Hname : display_name = GetDemangled T).
  { unfold display_name, REGISTER_TYPE.
    by rewrite GetTypeName_RegisterType. }
  split; [done|]. rewrite Hname.
  apply Serialize_generic_path; [done|done|].
  unfold ReflectionRegistry.GetDescriptor, ReflectionRegistry.RegisterType.
  simpl. by rewrite lookup_insert_eq.
Qed.

(** X24. A custom display name is of no use to the factory: when a type is
    registered under a custom name other than its demangled name and its
    descriptor is registered under that custom name only, [Serialize] and
    [Deserialize] fail although a generic serializer is at hand. *)
Theorem custom_name_is_not_the_factory_key
    (tr : TypeRegistry.t)
    (sr : SerializerRegistry.t) (rr : ReflectionRegistry.t)
    (T : CppType) (custom_name f : string) (gs : ISerializer.t)
    (desc : MessageDescriptor) (v : Obj) (input output : string) :
  custom_name ≠ "" →
  custom_name ≠ GetDemangled T →
  SerializerRegistry.GetTypeSerializer T f sr = None →
  SerializerRegistry.GetSerializer f sr = Some gs →
  ReflectionRegistry.GetDescriptor (GetDemangled T) rr = None →
  let display_name :=
    TypeRegistry.GetTypeName T (REGISTER_TYPE_WITH_NAME T custom_name tr) in
  let rr' := ReflectionRegistry.RegisterType display_name desc rr in
  display_name = custom_name ∧
  ReflectionRegistry.HasType display_name rr' = true ∧
  result (Serialize T v f output sr rr') = (false, output) ∧
  result (Deserialize T input v f sr rr') = (false, v).
Proof.
  intros Hcustom Hother Hts Hgs Hdesc display_name rr'.
  assert (Hname : display_name = custom_name).
  { unfold display_name, REGISTER_TYPE_WITH_NAME.
    by rewrite GetTypeName_RegisterType, registered_name_custom. }
  assert (Hmiss : ReflectionRegistry.GetDescriptor (GetDemangled T) rr' = None).
  { unfold rr', ReflectionRegistry.GetDescriptor,
      ReflectionRegistry.RegisterType. simpl.
    rewrite lookup_insert_ne; [done|]. by rewrite Hname. }
  split; [done|]. split.
  - unfold rr', ReflectionRegistry.HasType, ReflectionRegistry.RegisterType.
    simpl. by rewrite lookup_insert_eq.
  - by apply no_descriptor_no_result.
Qed.

End SerializerFactoryMoreFacts.

(** ** Names shared by two types; registrations that concern other pairs *)

Section SharingFacts.
Context `{CxxRuntime}.
Import Descriptor.

Lemma NoDup_fmap_elem_inj {A B} (f : A → B) (l : list A) (x y : A) :
  NoDup (f <$> l) → x ∈ l → y ∈ l → f x = f y → x = y.
Proof.
  induction l as [|a l IH]; intros Hnodup Hx Hy Heq.
  - by apply elem_of_nil in Hx.
  - rewrite fmap_cons in Hnodup. apply NoDup_cons in Hnodup as [Ha Hl].
    apply elem_of_cons in Hx as [->|Hx];
      apply elem_of_cons in Hy as [->|Hy]; [done| | |by apply IH].
    + exfalso. apply Ha. rewrite Heq. by apply list_elem_of_fmap_2.
    + exfalso. apply Ha. rewrite <- Heq. by apply list_elem_of_fmap_2.
Qed.

(** X25. [GetAllTypeNames] returns one name per registered type, not a set
    of names: after two types with different identities are registered
    under the same non-empty name, both report that name and the returned
    vector holds it more than once. *)
Theorem shared_name_is_listed_twice
    (r : TypeRegistry.t) (T1 T2 : CppType) (n : string) :
  typeid_name T1 ≠ typeid_name T2 →
  n ≠ "" →
  let r2 := TypeRegistry.RegisterType T2 n (TypeRegistry.RegisterType T1 n r) in
  TypeRegistry.GetTypeName T1 r2 = n ∧
  TypeRegistry.GetTypeName T2 r2 = n ∧
  ¬ NoDup (TypeRegistry.GetAllTypeNames r2).
Proof.
  intros Hids Hn r2.
  assert (H1 : TypeRegistry.type_names_ r2 !! typeid_name T1 = Some n).
  { unfold r2, TypeRegistry.RegisterType. simpl.
    rewrite lookup_insert_ne by done.
    by rewrite lookup_insert_eq, registered_name_custom. }
  assert (H2 : TypeRegistry.type_names_ r2 !! typeid_name T2 = Some n).
  { unfold r2, TypeRegistry.RegisterType at 1. simpl.
    by rewrite lookup_insert_eq, registered_name_custom. }
  unfold TypeRegistry.GetTypeName. rewrite H1, H2.
  split; [done|]. split; [done|].
  unfold TypeRegistry.GetAllTypeNames. intros Hnodup.
  apply Hids.
  assert (Hpair : (typeid_name T1, n) = (typeid_name T2, n)).
  { apply (NoDup_fmap_elem_inj snd
             (map_to_list (TypeRegistry.type_names_ r2)));
      [done| | |done]; by apply elem_of_map_to_list. }
  by injection Hpair.
Qed.

(** X26. Dispatch for a pair [(T, f)] looks at three entries only: the
    specialised entry under the key of [(T, f)], the generic serializer
    under [f] and the descriptor under the demangled name of [T].
    Registering a specialised serializer under another key, a generic
    serializer under another format and a descriptor under another name
    changes neither what [Serialize] and [Deserialize] return for [(T, f)]
    nor the steps they take. *)
Theorem dispatch_ignores_other_registrations
    (sr : SerializerRegistry.t) (rr : ReflectionRegistry.t)
    (T T' : CppType) (f f' g n : string)
    (s : option ITypeSerializer.t) (gs : option ISerializer.t)
    (d : MessageDescriptor) (v : Obj) (input output : string) :
  SerializerRegistry.MakeTypeSerializerKey T' f' ≠
    SerializerRegistry.MakeTypeSerializerKey T f →
  g ≠ f →
  n ≠ SerializerFactory.GetDemangled T →
  let sr' := SerializerRegistry.RegisterSerializer g gs
               (SerializerRegistry.RegisterTypeSerializer T' f' s sr) in
  let rr' := ReflectionRegistry.RegisterType n d rr in
  SerializerFactory.Serialize T v f output sr' rr' =
    SerializerFactory.Serialize T v f output sr rr ∧
  SerializerFactory.Deserialize T input v f sr' rr' =
    SerializerFactory.Deserialize T input v f sr rr.
Proof.
  intros Hkey Hfmt Hname sr' rr'.
  assert (Hts : SerializerRegistry.GetTypeSerializer T f sr' =
                SerializerRegistry.GetTypeSerializer T f sr).
  { unfold sr', SerializerRegistry.GetTypeSerializer,
      SerializerRegistry.RegisterSerializer,
      SerializerRegistry.RegisterTypeSerializer. simpl.
    by rewrite lookup_insert_ne. }
  assert (Hgs : SerializerRegistry.GetSerializer f sr' =
                SerializerRegistry.GetSerializer f sr).
  { unfold sr', SerializerRegistry.GetSerializer,
      SerializerRegistry.RegisterSerializer,
      SerializerRegistry.RegisterTypeSerializer. simpl.
    by rewrite lookup_insert_ne. }
  assert (Hdesc :
    ReflectionRegistry.GetDescriptor (SerializerFactory.GetDemangled T) rr' =
    ReflectionRegistry.GetDescriptor (SerializerFactory.GetDemangled T) rr).
  { unfold rr', ReflectionRegistry.GetDescriptor,
      ReflectionRegistry.RegisterType. simpl.
    by rewrite lookup_insert_ne. }
  unfold SerializerFactory.Serialize, SerializerFactory.Deserialize.
  by rewrite Hts, Hgs, Hdesc.
Qed.

End SharingFacts.

(** * The model on concrete inputs *)

Import Demo.

(** The unit test's assertions after its tests 1 to 7. *)
Example type_registry_test_run :
  let r := TypeRegistry.run
             (test_calls ++ [TypeRegistry.CallRegisterType NestedClass ""])
             TypeRegistry.Instance in
  TypeRegistry.GetTypeName TestClass1 r = "TestClass1" ∧
  TypeRegistry.GetTypeName TestClass2 r = "CustomName" ∧
  TypeRegistry.GetTypeName NestedClass r = "nested::NestedClass" ∧
  TypeRegistry.GetRegisteredTypeCount r = 3 ∧
  TypeRegistry.HasTypeName "CustomName" r = true ∧
  TypeRegistry.HasTypeName "NonExistent" r = false ∧
  TypeRegistry.GetRegisteredTypeCount (TypeRegistry.Clear r) = 0.
Proof. vm_compute. repeat split; reflexivity. Qed.

Example point_descriptor_lookup :
  Descriptor.fields point_desc = [field_x; field_y] ∧
  Descriptor.GetField "y" point_desc = Some field_y ∧
  Descriptor.GetFieldByNumber 1 point_desc = Some field_x ∧
  Descriptor.GetField "z" point_desc = None ∧
  Descriptor.GetFieldByNumber 3 point_desc = None.
Proof. repeat split; reflexivity. Qed.

Lemma specialized_serializer_takes_precedence_witness :
  ReflectionRegistry.HasType "Point" ReflectionRegistry.Instance = false ∧
  result (SerializerFactory.Serialize Point (1, 2)%Z "bin" "" sr_bin
            ReflectionRegistry.Instance) = (true, "0102") ∧
  result (SerializerFactory.Serialize Point (1, 2)%Z "bin" "" sr_bin_reject
            ReflectionRegistry.Instance) = (false, "").
Proof.
  split; [reflexivity|]. split.
  - destruct (@specialized_serializer_takes_precedence runtime
                sr_bin ReflectionRegistry.Instance Point "bin" bin_point
                (1, 2)%Z "") as [Hres _]; [reflexivity|].
    rewrite Hres. reflexivity.
  - destruct (@specialized_serializer_takes_precedence runtime
                sr_bin_reject ReflectionRegistry.Instance Point "bin"
                reject_point (1, 2)%Z "") as [Hres _]; [reflexivity|].
    rewrite Hres. reflexivity.
Defined.

Lemma generic_fallback_delegates_witness :
  result (SerializerFactory.Serialize Point (3, 4)%Z "json" "" sr_json rr_point)
  = (true, "{3,4}").
Proof.
  destruct (@generic_fallback_delegates runtime sr_json rr_point Point "json" json
              point_desc (3, 4)%Z "") as [Hres _];
    [reflexivity|reflexivity|reflexivity|].
  rewrite Hres. reflexivity.
Defined.

(** C2 as stated fails twice over.  A generic serializer may reject the
    object, and then [Serialize] reports failure although the serializer and
    the descriptor are both registered.  And [GRLRPC_REGISTER_TYPE] files the
    descriptor under the macro token, where the factory asks for the
    demangled name: for [foo::Point] the lookup misses, and [Serialize] fails
    where driving the serializer by hand succeeds. *)
Lemma generic_fallback_may_fail :
  (SerializerRegistry.HasTypeSerializer Point "json" sr_reject_all = false ∧
   SerializerRegistry.GetSerializer "json" sr_reject_all = Some reject_all ∧
   ReflectionRegistry.GetDescriptor "Point" rr_point = Some point_desc ∧
   result (SerializerFactory.Serialize Point (3, 4)%Z "json" ""
             sr_reject_all rr_point) = (false, "")) ∧
  (SerializerRegistry.HasTypeSerializer FooPoint "json" sr_json = false ∧
   SerializerRegistry.GetSerializer "json" sr_json = Some json ∧
   ReflectionRegistry.GetDescriptor "Point" rr_point = Some point_desc ∧
   ISerializer.Serialize json (3, 4)%Z point_desc "" = (true, "{3,4}") ∧
   result (SerializerFactory.Serialize FooPoint (3, 4)%Z "json" ""
             sr_json rr_point) = (false, "")).
Proof. repeat split; reflexivity. Qed.

Lemma missing_link_fails_closed_witness :
  result (SerializerFactory.Serialize FooPoint (3, 4)%Z "json" "" sr_json rr_point)
    = (false, "") ∧
  result (SerializerFactory.Deserialize FooPoint "{3,4}" (0, 0)%Z "json"
            sr_json rr_point) = (false, (0, 0)%Z).
Proof.
  destruct (@missing_link_fails_closed runtime sr_json rr_point FooPoint "json"
              (3, 4)%Z "{3,4}" "") as (Hser & _ & _ & _);
    [reflexivity|left; reflexivity|].
  destruct (@missing_link_fails_closed runtime sr_json rr_point FooPoint "json"
              (0, 0)%Z "{3,4}" "") as (_ & Hde & _ & _);
    [reflexivity|left; reflexivity|].
  split; assumption.
Defined.

Lemma dispatch_preserves_round_trip_witness :
  result (SerializerFactory.Serialize Point (3, 4)%Z "json" "" sr_json rr_point)
    = (true, "{3,4}") ∧
  result (SerializerFactory.Deserialize Point "{3,4}" (0, 0)%Z "json"
            sr_json rr_point) = (true, (3, 4)%Z).
Proof.
  apply (@dispatch_preserves_round_trip runtime sr_json rr_point Point "json"
           (3, 4)%Z (0, 0)%Z (3, 4)%Z "" "{3,4}").
  right. exists json, point_desc. repeat split; reflexivity.
Defined.

(** C4 as stated fails: the registry takes any implementation of the
    interface, such as one that writes nothing and reads nothing. *)
Lemma registered_serializer_need_not_round_trip :
  ReflectionRegistry.GetDescriptor "Point" rr_point = Some point_desc ∧
  SerializerRegistry.GetSerializer "json" sr_lossy = Some lossy ∧
  result (SerializerFactory.Serialize Point (3, 4)%Z "json" "" sr_lossy rr_point)
    = (true, "") ∧
  result (SerializerFactory.Deserialize Point "" (0, 0)%Z "json"
            sr_lossy rr_point) = (true, (0, 0)%Z) ∧
  Descriptor.getter field_x (0, 0)%Z ≠ Descriptor.getter field_x (3, 4)%Z.
Proof. repeat split; try reflexivity. discriminate. Qed.

(** [NestedClass] is registered and then cleared away before the test's
    registrations run. *)
Lemma unregistered_type_is_absent_witness :
  let calls := TypeRegistry.CallRegisterType NestedClass "Nested"
               :: TypeRegistry.CallClear :: test_calls in
  TypeRegistry.GetTypeName NestedClass
    (TypeRegistry.run calls TypeRegistry.Instance) = "" ∧
  TypeRegistry.IsTypeRegistered NestedClass
    (TypeRegistry.run calls TypeRegistry.Instance) = false.
Proof.
  intros calls.
  apply (@unregistered_type_is_absent runtime calls NestedClass).
  intros Hin. simpl in Hin.
  repeat (apply elem_of_cons in Hin as [Heq|Hin]; [discriminate Heq|]).
  by apply elem_of_nil in Hin.
Defined.

(** C5 as stated fails for a type that was never registered but shares its
    [typeid] name with one that was: the two [Tag] classes of two unnamed
    namespaces.  After [RegisterType<TagA>()] alone, the lookups for [TagB]
    find the entry of [TagA]. *)
Lemma shared_typeid_name_reports_registered :
  TagB ≠ TagA ∧
  TypeRegistry.IsTypeRegistered TagB
    (TypeRegistry.run [TypeRegistry.CallRegisterType TagA ""]
       TypeRegistry.Instance) = true ∧
  TypeRegistry.GetTypeName TagB
    (TypeRegistry.run [TypeRegistry.CallRegisterType TagA ""]
       TypeRegistry.Instance) = "(anonymous namespace)::Tag" ∧
  TypeRegistry.GetTypeName TagB
    (TypeRegistry.run [TypeRegistry.CallRegisterType TagA ""]
       TypeRegistry.Instance) ≠ "".
Proof. split; [discriminate|]. split; [reflexivity|]. split; [reflexivity|discriminate]. Qed.

Lemma registration_last_write_wins_witness :
  TypeRegistry.GetTypeName TestClass2
    (TypeRegistry.RegisterType TestClass2 "CustomName"
       (TypeRegistry.RegisterType TestClass2 "First" TypeRegistry.Instance))
    = "CustomName" ∧
  TypeRegistry.name_to_type_id_
    (TypeRegistry.RegisterType TestClass2 "Shared"
       (TypeRegistry.RegisterType TestClass1 "Shared" TypeRegistry.Instance))
    !! "Shared" = Some "10TestClass2" ∧
  TypeRegistry.HasTypeName "Shared"
    (TypeRegistry.RegisterType TestClass2 "Shared"
       (TypeRegistry.RegisterType TestClass1 "Shared" TypeRegistry.Instance))
    = true.
Proof.
  apply (@registration_last_write_wins runtime TypeRegistry.Instance
           TestClass2 TestClass1 TestClass2 "First" "CustomName" "Shared");
    discriminate.
Defined.

(** C6 as stated fails when the second name is the empty string, which
    [RegisterType] takes to mean "use the demangled name". *)
Lemma empty_name_is_not_last_write :
  TypeRegistry.GetTypeName TestClass1
    (TypeRegistry.RegisterType TestClass1 ""
       (TypeRegistry.RegisterType TestClass1 "CustomName"
          TypeRegistry.Instance)) = "TestClass1" ∧
  TypeRegistry.GetTypeName TestClass1
    (TypeRegistry.RegisterType TestClass1 ""
       (TypeRegistry.RegisterType TestClass1 "CustomName"
          TypeRegistry.Instance)) ≠ "".
Proof. split; [reflexivity|discriminate]. Qed.

Lemma mismatched_wrapper_is_not_found_witness :
  SerializerRegistry.HasTypeSerializer TagB "bin" sr_tag = true ∧
  SerializerRegistry.GetTypeSerializer TagB "bin" sr_tag = None.
Proof.
  split; [reflexivity|].
  destruct (@mismatched_wrapper_is_not_found runtime sr_tag TagB "bin"
              (@TypeSerializerWrapper.make runtime TagA (Some bin_point)))
    as [Hnull _]; [reflexivity|discriminate|].
  exact Hnull.
Defined.

Lemma stale_name_survives_reregistration_witness :
  TypeRegistry.HasTypeName "Old"
    (TypeRegistry.RegisterType TestClass1 "New"
       (TypeRegistry.RegisterType TestClass1 "Old" TypeRegistry.Instance))
    = true ∧
  TypeRegistry.GetTypeName TestClass1
    (TypeRegistry.RegisterType TestClass1 "New"
       (TypeRegistry.RegisterType TestClass1 "Old" TypeRegistry.Instance))
    = "New".
Proof.
  split; [|reflexivity].
  destruct (@stale_name_survives_reregistration runtime TypeRegistry.Instance
              TestClass1 "Old" "New" []) as [Hkept _];
    [discriminate|constructor|].
  exact Hkept.
Defined.

(** C10 as stated fails when the first name is the empty string: the type
    was then registered under its demangled name, and the empty string never
    entered the reverse map. *)
Lemma empty_old_name_is_not_kept :
  TypeRegistry.HasTypeName ""
    (TypeRegistry.RegisterType TestClass1 "New"
       (TypeRegistry.RegisterType TestClass1 "" TypeRegistry.Instance))
    = false ∧
  TypeRegistry.HasTypeName "TestClass1"
    (TypeRegistry.RegisterType TestClass1 "New"
       (TypeRegistry.RegisterType TestClass1 "" TypeRegistry.Instance))
    = true.
Proof. split; reflexivity. Qed.

(** ** Further runs *)

Lemma unique_fields_are_found_witness :
  Descriptor.GetField "y" point_desc = Some field_y ∧
  Descriptor.GetFieldByNumber 2 point_desc = Some field_y.
Proof.
  apply (@unique_fields_are_found runtime point_desc field_y).
  - apply NoDup_cons. split; [|apply NoDup_singleton].
    intros Hin. apply list_elem_of_singleton in Hin. discriminate Hin.
  - apply NoDup_cons. split; [|apply NoDup_singleton].
    intros Hin. apply list_elem_of_singleton in Hin. discriminate Hin.
  - apply list_elem_of_further, list_elem_of_here.
Defined.

Lemma registered_name_is_known_witness :
  TypeRegistry.HasTypeName
    (TypeRegistry.GetTypeName TestClass2
       (TypeRegistry.run test_calls TypeRegistry.Instance))
    (TypeRegistry.run test_calls TypeRegistry.Instance) = true.
Proof.
  apply (@registered_name_is_known runtime test_calls TestClass2).
  reflexivity.
Defined.

Lemma known_name_leads_to_registered_type_witness :
  let calls := [TypeRegistry.CallRegisterType TestClass1 "Old";
                TypeRegistry.CallRegisterType TestClass1 "New"] in
  is_Some (TypeRegistry.type_names_
             (TypeRegistry.run calls TypeRegistry.Instance)
           !! "10TestClass1") ∧
  TypeRegistry.HasTypeName "Old"
    (TypeRegistry.run calls TypeRegistry.Instance) = true.
Proof.
  intros calls.
  apply (@known_name_leads_to_registered_type runtime calls "Old"
           "10TestClass1").
  reflexivity.
Defined.

Lemma RegisterType_frame_witness :
  TypeRegistry.GetRegisteredTypeCount
    (TypeRegistry.RegisterType TestClass1 "Again"
       (TypeRegistry.run test_calls TypeRegistry.Instance)) = 2 ∧
  TypeRegistry.GetTypeName TestClass2
    (TypeRegistry.RegisterType TestClass1 "Again"
       (TypeRegistry.run test_calls TypeRegistry.Instance)) = "CustomName".
Proof.
  destruct (@RegisterType_frame runtime
              (TypeRegistry.run test_calls TypeRegistry.Instance)
              TestClass1 TestClass2 "Again" "CustomName")
    as (Hcount & Hother & _).
  split.
  - rewrite Hcount. reflexivity.
  - destruct Hother as [Hname _]; [discriminate|].
    rewrite Hname. reflexivity.
Defined.

Lemma stale_name_is_not_listed_witness :
  ("Old" ∉ TypeRegistry.GetAllTypeNames
             (TypeRegistry.RegisterType TestClass1 "New"
                (TypeRegistry.RegisterType TestClass1 "Old"
                   TypeRegistry.Instance))) ∧
  TypeRegistry.HasTypeName "Old"
    (TypeRegistry.RegisterType TestClass1 "New"
       (TypeRegistry.RegisterType TestClass1 "Old" TypeRegistry.Instance))
    = true.
Proof.
  destruct (@stale_name_is_not_listed runtime TypeRegistry.Instance
              TestClass1 "Old" "New") as (Hgone & _ & Hknown).
  - discriminate.
  - discriminate.
  - unfold TypeRegistry.GetAllTypeNames. simpl.
    rewrite map_to_list_empty. apply not_elem_of_nil.
  - split; assumption.
Defined.

Lemma registration_order_is_irrelevant_witness :
  TypeRegistry.RegisterType TestClass1 ""
    (TypeRegistry.RegisterType TestClass2 "CustomName" TypeRegistry.Instance)
  = TypeRegistry.run test_calls TypeRegistry.Instance.
Proof.
  apply (@registration_order_is_irrelevant runtime TypeRegistry.Instance
           TestClass1 TestClass2 "" "CustomName"); discriminate.
Defined.

Lemma repeated_registration_is_idle_witness :
  TypeRegistry.run
    (test_calls ++ [TypeRegistry.CallRegisterType TestClass1 ""])
    TypeRegistry.Instance
  = TypeRegistry.run test_calls TypeRegistry.Instance.
Proof.
  apply (@repeated_registration_is_idle runtime TypeRegistry.Instance
           TestClass1 ""
           [@TypeRegistry.CallRegisterType runtime TestClass2 "CustomName"]).
  constructor; [|constructor]. split; discriminate.
Defined.

Lemma descriptor_registration_order_witness :
  ReflectionRegistry.GetDescriptor "Point"
    (ReflectionRegistry.RegisterType "Line"
       {| Descriptor.message_name := "Line"; Descriptor.fields := [] |}
       rr_point) = Some point_desc.
Proof.
  destruct (@descriptor_registration_order runtime ReflectionRegistry.Instance
              "Point" "Line" point_desc
              {| Descriptor.message_name := "Line"; Descriptor.fields := [] |}
              point_desc) as (_ & Hkept & _); [discriminate|].
  exact Hkept.
Defined.

Lemma GRLRPC_REGISTER_TYPE_registers_witness :
  ReflectionRegistry.GetDescriptor "Point"
    (ReflectionRegistry.GRLRPC_REGISTER_TYPE "Point"
       (Descriptor.AddFields [field_x; field_y]) ReflectionRegistry.Instance)
  = Some point_desc.
Proof.
  destruct (@GRLRPC_REGISTER_TYPE_registers runtime ReflectionRegistry.Instance
              "Point" "Line" [field_x; field_y]) as (Hfound & _);
    [discriminate|].
  exact Hfound.
Defined.

Lemma type_serializer_keys_are_separate_witness :
  SerializerRegistry.MakeTypeSerializerKey Point "bin" ≠
  SerializerRegistry.MakeTypeSerializerKey FooPoint "bin".
Proof.
  intros Heq.
  apply (@type_serializer_keys_are_separate runtime Point FooPoint
           "bin" "bin") in Heq as [Hname _]; [|reflexivity|reflexivity].
  discriminate Hname.
Defined.

Lemma formats_are_independent_witness :
  SerializerRegistry.GetTypeSerializer Point "bin"
    (SerializerRegistry.RegisterTypeSerializer Point "fast"
       (Some reject_point) sr_bin) = Some bin_point.
Proof.
  destruct (@formats_are_independent runtime sr_bin Point "fast" "bin" "json"
              (Some reject_point) None) as (Hkept & _); [discriminate|].
  rewrite Hkept. reflexivity.
Defined.

Lemma presence_is_not_availability_witness :
  SerializerRegistry.HasTypeSerializer Point "bin" sr_bin = true.
Proof.
  destruct (@presence_is_not_availability runtime sr_bin Point "bin")
    as (Hpresent & _).
  apply (Hpresent bin_point). reflexivity.
Defined.

Lemma same_key_registration_replaces_witness :
  SerializerRegistry.GetTypeSerializer TagA "bin"
    (SerializerRegistry.RegisterTypeSerializer TagB "bin"
       (Some reject_point) sr_tag) = None ∧
  SerializerRegistry.GetTypeSerializer TagB "bin"
    (SerializerRegistry.RegisterTypeSerializer TagB "bin"
       (Some reject_point) sr_tag) = Some reject_point.
Proof.
  destruct (@same_key_registration_replaces runtime
              SerializerRegistry.Instance TagA TagB "bin"
              (Some bin_point) (Some reject_point))
    as (Hfirst & _ & Hsecond); [reflexivity|discriminate|].
  split; assumption.
Defined.

Lemma specialized_deserializer_takes_precedence_witness :
  result (SerializerFactory.Deserialize Point "0304" (0, 0)%Z "bin" sr_bin
            ReflectionRegistry.Instance) = (true, (3, 4)%Z).
Proof.
  destruct (@specialized_deserializer_takes_precedence runtime sr_bin
              ReflectionRegistry.Instance Point "bin" bin_point "0304"
              (0, 0)%Z) as [Hres _]; [reflexivity|].
  rewrite Hres. reflexivity.
Defined.

Lemma generic_fallback_deserializes_witness :
  result (SerializerFactory.Deserialize Point "{1,2}" (0, 0)%Z "json"
            sr_json rr_point) = (true, (1, 2)%Z).
Proof.
  destruct (@generic_fallback_deserializes runtime sr_json rr_point Point
              "json" json point_desc "{1,2}" (0, 0)%Z) as [Hres _];
    [reflexivity|reflexivity|reflexivity|].
  rewrite Hres. reflexivity.
Defined.

Lemma null_specialized_serializer_falls_back_witness :
  result (SerializerFactory.Serialize Point (1, 2)%Z "json" ""
            (SerializerRegistry.RegisterTypeSerializer Point "json" None
               (SerializerRegistry.RegisterTypeSerializer Point "json"
                  (Some reject_point) sr_json))
            rr_point) = (true, "{1,2}").
Proof.
  destruct (@null_specialized_serializer_falls_back runtime
              (@SerializerRegistry.RegisterTypeSerializer runtime Point "json"
                 (Some reject_point) sr_json)
              rr_point Point "json" json point_desc (1, 2)%Z "" "")
    as (_ & Hser & _); [reflexivity|reflexivity|].
  rewrite Hser. reflexivity.
Defined.

Lemma descriptor_lookup_comes_last_witness :
  trace (SerializerFactory.Serialize Point (1, 2)%Z "xml" "" sr_json rr_point)
  = [FindTypeSerializer "5Point:xml"; FindSerializer "xml"].
Proof.
  destruct (@descriptor_lookup_comes_last runtime sr_json rr_point Point
              "xml" (1, 2)%Z "" "") as [Hser _]; [reflexivity|reflexivity|].
  rewrite Hser. reflexivity.
Defined.

Lemma default_name_is_the_factory_key_witness :
  TypeRegistry.GetTypeName Point (REGISTER_TYPE Point TypeRegistry.Instance)
    = "Point" ∧
  result (SerializerFactory.Serialize Point (3, 4)%Z "json" "" sr_json
            (ReflectionRegistry.RegisterType
               (TypeRegistry.GetTypeName Point
                  (REGISTER_TYPE Point TypeRegistry.Instance))
               point_desc ReflectionRegistry.Instance)) = (true, "{3,4}").
Proof.
  destruct (@default_name_is_the_factory_key runtime TypeRegistry.Instance
              sr_json ReflectionRegistry.Instance Point "json" json
              point_desc (3, 4)%Z "") as [Hname Hser];
    [reflexivity|reflexivity|].
  split; [rewrite Hname; reflexivity|].
  rewrite Hser. reflexivity.
Defined.

Lemma custom_name_is_not_the_factory_key_witness :
  result (SerializerFactory.Serialize Point (3, 4)%Z "json" "" sr_json
            (ReflectionRegistry.RegisterType
               (TypeRegistry.GetTypeName Point
                  (REGISTER_TYPE_WITH_NAME Point "geo.Point"
                     TypeRegistry.Instance))
               point_desc ReflectionRegistry.Instance)) = (false, "").
Proof.
  destruct (@custom_name_is_not_the_factory_key runtime TypeRegistry.Instance
              sr_json ReflectionRegistry.Instance Point "geo.Point" "json"
              json point_desc (3, 4)%Z "" "") as (_ & _ & Hser & _);
    [discriminate|discriminate|reflexivity|reflexivity|reflexivity|].
  exact Hser.
Defined.

Lemma shared_name_is_listed_twice_witness :
  ¬ NoDup (TypeRegistry.GetAllTypeNames
             (TypeRegistry.RegisterType TestClass2 "Shared"
                (TypeRegistry.RegisterType TestClass1 "Shared"
                   TypeRegistry.Instance))).
Proof.
  destruct (@shared_name_is_listed_twice runtime TypeRegistry.Instance
              TestClass1 TestClass2 "Shared") as (_ & _ & Htwice);
    [discriminate|discriminate|].
  exact Htwice.
Defined.

Lemma dispatch_ignores_other_registrations_witness :
  result (SerializerFactory.Serialize Point (3, 4)%Z "json" ""
            (SerializerRegistry.RegisterSerializer "xml" (Some reject_all)
               (SerializerRegistry.RegisterTypeSerializer FooPoint "json"
                  (Some reject_point) sr_json))
            (ReflectionRegistry.RegisterType "foo::Point" point_desc rr_point))
  = (true, "{3,4}").
Proof.
  destruct (@dispatch_ignores_other_registrations runtime sr_json rr_point
              Point FooPoint "json" "json" "xml" "foo::Point"
              (Some reject_point) (Some reject_all) point_desc
              (3, 4)%Z "" "") as [Hser _];
    [discriminate|discriminate|discriminate|].
  rewrite Hser. reflexivity.
Defined.
